(** * CIFAR10_NN: a shallow embedding of the training script

    The script [CIFAR10_NN.py] wires a three-layer feed-forward classifier
    to library primitives of PyTorch.  This development embeds the script's
    own logic: [accuracy], the [CIFARModel] methods, [to_device],
    [DeviceDataLoader], [evaluate], [fit], the top-level training schedule,
    the checkpoint reload and the metrics record.

    Modelling conventions.
    - A float is an exact rational ([Q]); rounding is outside the model.
    - A tensor is a list (of lists) of scalars; integer tensors hold [Z].
    - A Python exception is a value of [Exn].  Pure code returns a [res];
      code that mutates returns an [Outcome], which carries the state
      reached also when it raised.
    - Library primitives whose value is not rational (cross-entropy, its
      gradient) or whose algorithm lives in the library (the generator,
      the initialiser, the split, the batch sampler, the checkpoint byte
      format) are the fields of the class [TorchLib].
    - The forward pass, cross-entropy and the unpacking of a batch raise
      where the library or the interpreter raise: on a batch of no
      sample, on an image of the wrong size, on labels that are too many,
      too few or out of range, on a batch that is not a pair.
    - Tensors handed to the model are read whatever device they are on,
      and a gradient is taken to have the shape of its parameter: device
      mismatches are outside the model. *)

From Stdlib Require Import String Ascii.
From Stdlib Require Import List ZArith QArith Qminmax Lia Bool Arith.
Import ListNotations.

Set Implicit Arguments.

Local Open Scope Q_scope.

(* ------------------------------------------------------------------ *)
(** ** Exceptions and pure results *)

Inductive Exn : Type :=
| ZeroDivisionError
| IndexError          (* reduction over a dimension of size zero *)
| RuntimeError        (* shape mismatch, [torch.stack] of an empty list, load errors *)
| ValueError          (* unpacking a batch that is not a pair; batch-size mismatch *)
| FileNotFoundError
| AttributeError      (* a list where a tensor is expected *)
| TypeError.

Inductive res (A : Type) : Type :=
| Ok (a : A)
| Err (e : Exn).
Arguments Ok {A} a.
Arguments Err {A} e.

Definition res_bind {A B} (r : res A) (k : A -> res B) : res B :=
  match r with
  | Ok a => k a
  | Err e => Err e
  end.

Fixpoint res_map {A B} (f : A -> res B) (l : list A) : res (list B) :=
  match l with
  | [] => Ok []
  | x :: t =>
      res_bind (f x) (fun y => res_bind (res_map f t) (fun ys => Ok (y :: ys)))
  end.

(* ------------------------------------------------------------------ *)
(** ** Tensors *)

Definition Vector := list Q.
Definition Matrix := list (list Q).
Definition IntVector := list Z.

(** [a < b] on scalars, as a test. *)
Definition Qltb (a b : Q) : bool := negb (Qle_bool b a).

(** [torch.max(row)] with its index: the scan keeps the running maximum
    and moves only on a strictly larger score, so that among equal maxima
    the first index is returned. *)
Fixpoint max_scan (best : Q) (bi i : nat) (row : list Q) : Q * nat :=
  match row with
  | [] => (best, bi)
  | x :: t => if Qltb best x then max_scan x i (S i) t
              else max_scan best bi (S i) t
  end.

Definition torch_max_row (row : list Q) : res (Q * nat) :=
  match row with
  | [] => Err IndexError
  | x :: t => Ok (max_scan x 0%nat 1%nat t)
  end.

(** [torch.max(outputs, dim=1)]: one (value, index) pair per row. *)
Definition torch_max_dim1 (outputs : Matrix) : res (list Q * IntVector) :=
  res_bind (res_map torch_max_row outputs)
    (fun vi => Ok (map fst vi, map (fun p => Z.of_nat (snd p)) vi)).

(** [preds == labels] on one-dimensional integer tensors, with the
    library's broadcasting of a one-element operand. *)
Definition tensor_eq (a b : IntVector) : res (list bool) :=
  if Nat.eqb (length a) (length b) then
    Ok (map (fun p => Z.eqb (fst p) (snd p)) (combine a b))
  else match a, b with
       | [x], _ => Ok (map (fun y => Z.eqb x y) b)
       | _, [y] => Ok (map (fun x => Z.eqb x y) a)
       | _, _ => Err RuntimeError
       end.

(** [torch.sum(mask).item()] *)
Definition torch_sum_bool (mask : list bool) : Z :=
  Z.of_nat (length (filter (fun b => b) mask)).

(** Python's [a / b] on integers. *)
Definition py_truediv (a b : Z) : res Q :=
  if Z.eqb b 0 then Err ZeroDivisionError
  else Ok (inject_Z a / inject_Z b).

(** [accuracy(outputs, labels)], lines 31-33. *)
Definition accuracy (outputs : Matrix) (labels : IntVector) : res Q :=
  res_bind (torch_max_dim1 outputs) (fun vp =>
  let preds := snd vp in
  res_bind (tensor_eq preds labels) (fun mask =>
  py_truediv (torch_sum_bool mask) (Z.of_nat (length preds)))).

(** *** What the claim calls "arg-max score equals the label" *)

(** [is_argmax row l]: position [l] holds a score that no position exceeds
    and that no earlier position reaches. *)
Definition is_argmax (row : list Q) (l : Z) : Prop :=
  (0 <= l)%Z /\
  exists v, nth_error row (Z.to_nat l) = Some v /\
    forall j w, nth_error row j = Some w ->
      w <= v /\ ((j < Z.to_nat l)%nat -> w < v).

(** [hits samples k]: exactly [k] of the (row, label) samples are
    arg-max-correct. *)
Inductive hits : list (list Q * Z) -> nat -> Prop :=
| hits_nil : hits [] 0
| hits_yes row l t k : is_argmax row l -> hits t k -> hits ((row, l) :: t) (S k)
| hits_no row l t k : ~ is_argmax row l -> hits t k -> hits ((row, l) :: t) k.

(* ------------------------------------------------------------------ *)
(** ** The model: three linear layers (lines 35-59) *)

(** A parameter tensor with the gradient accumulated on it ([.grad]). *)
Record Param (A : Type) : Type := mkParam { data : A; grad : option A }.

Record Linear : Type := mkLinear {
  weight : Param Matrix;    (* out_features rows of in_features scalars *)
  bias : Param Vector       (* out_features scalars *)
}.

Record CIFARModel : Type := mkModel {
  linear1 : Linear;
  linear2 : Linear;
  linear3 : Linear
}.

(** One sample image: channels of rows of pixels. *)
Definition Image := list (list (list Q)).

Definition Qsum (l : list Q) : Q := fold_right Qplus 0 l.

Definition dot (a b : Vector) : Q :=
  Qsum (map (fun p => fst p * snd p) (combine a b)).

(** [nn.Linear.__call__] on one sample: [x W^T + b].  The product is
    refused when the sample has not as many entries as a row of the
    weight has, and the sum when the bias has not one entry per row. *)
Definition linear_apply (l : Linear) (x : Vector) : res Vector :=
  let w := data (weight l) in
  let b := data (bias l) in
  if forallb (fun row => Nat.eqb (length row) (length x)) w
     && Nat.eqb (length b) (length w)
  then Ok (map (fun rb => dot (fst rb) x + snd rb) (combine w b))
  else Err RuntimeError.

(** [F.relu] *)
Definition relu (v : Vector) : Vector := map (Qmax 0) v.

(** [xb.view(xb.size(0), -1)] on one sample. *)
Definition flatten (img : Image) : Vector := concat (concat img).

(** Lines 48-59 on one sample: the view refuses a sample of no entry. *)
Definition forward_one (m : CIFARModel) (img : Image) : res Vector :=
  let x := flatten img in
  if Nat.eqb (length x) 0 then Err RuntimeError
  else
    res_bind (linear_apply (linear1 m) x) (fun out =>
    let out := relu out in
    res_bind (linear_apply (linear2 m) out) (fun out =>
    let out := relu out in
    linear_apply (linear3 m) out)).

(** [CIFARModel.forward], lines 46-59: the view of line 48 refuses a
    batch of no sample. *)
Definition forward (m : CIFARModel) (xb : list Image) : res Matrix :=
  match xb with
  | [] => Err RuntimeError
  | _ => res_map (forward_one m) xb
  end.

(** The six gradients that one backward pass produces. *)
Record Grads : Type := mkGrads {
  g_w1 : Matrix; g_b1 : Vector;
  g_w2 : Matrix; g_b2 : Vector;
  g_w3 : Matrix; g_b3 : Vector
}.

(** *** Elementwise arithmetic that keeps the shape of its first operand *)

Fixpoint vec_zip (f : Q -> Q -> Q) (p g : Vector) : Vector :=
  match p, g with
  | x :: p', y :: g' => f x y :: vec_zip f p' g'
  | _, _ => p
  end.

Fixpoint mat_zip (f : Q -> Q -> Q) (p g : Matrix) : Matrix :=
  match p, g with
  | r :: p', s :: g' => vec_zip f r s :: mat_zip f p' g'
  | _, _ => p
  end.

(** [p.grad += g], or [p.grad = g] when there is none yet. *)
Definition accumulate {A} (add : A -> A -> A) (p : Param A) (g : A)
  : Param A :=
  mkParam (data p) (match grad p with
                    | None => Some g
                    | Some a => Some (add a g)
                    end).

(** [p.data -= lr * p.grad]; a parameter without gradient is skipped. *)
Definition sgd_update {A} (sub_scaled : A -> A -> A) (p : Param A)
  : Param A :=
  match grad p with
  | None => p
  | Some g => mkParam (sub_scaled (data p) g) (grad p)
  end.

Definition clear_grad {A} (p : Param A) : Param A :=
  mkParam (data p) None.

Definition map_params (fm : Param Matrix -> Param Matrix)
  (fv : Param Vector -> Param Vector) (m : CIFARModel) : CIFARModel :=
  let on l := mkLinear (fm (weight l)) (fv (bias l)) in
  mkModel (on (linear1 m)) (on (linear2 m)) (on (linear3 m)).

(** What [loss.backward()] does to the model, given the six gradients. *)
Definition accumulate_grads (g : Grads) (m : CIFARModel) : CIFARModel :=
  let acc_m := accumulate (mat_zip Qplus) in
  let acc_v := accumulate (vec_zip Qplus) in
  mkModel
    (mkLinear (acc_m (weight (linear1 m)) (g_w1 g)) (acc_v (bias (linear1 m)) (g_b1 g)))
    (mkLinear (acc_m (weight (linear2 m)) (g_w2 g)) (acc_v (bias (linear2 m)) (g_b2 g)))
    (mkLinear (acc_m (weight (linear3 m)) (g_w3 g)) (acc_v (bias (linear3 m)) (g_b3 g))).

(** [torch.optim.SGD(params, lr).step()] without momentum or decay. *)
Definition sgd_step (lr : Q) (m : CIFARModel) : CIFARModel :=
  let upd x g := x - lr * g in
  map_params (sgd_update (mat_zip upd)) (sgd_update (vec_zip upd)) m.

(** [optimizer.zero_grad()] *)
Definition zero_grad (m : CIFARModel) : CIFARModel :=
  map_params (@clear_grad Matrix) (@clear_grad Vector) m.

(** The parameter values alone, in [model.parameters()] order. *)
Definition param_values (m : CIFARModel)
  : (Matrix * Vector) * (Matrix * Vector) * (Matrix * Vector) :=
  let v l := (data (weight l), data (bias l)) in
  (v (linear1 m), v (linear2 m), v (linear3 m)).

(* ------------------------------------------------------------------ *)
(** ** Batches, devices and [to_device] (lines 94-108) *)

Inductive Device : Type := cpu | cuda.

(** [get_default_device()], given what [torch.cuda.is_available()] says. *)
Definition get_default_device (cuda_is_available : bool) : Device :=
  if cuda_is_available then cuda else cpu.

(** What a data loader yields: tensors, and lists or tuples of data. *)
#[warnings="-register-all"]
Inductive Data : Type :=
| FloatTensor (dev : Device) (x : list Image)
| LongTensor (dev : Device) (y : IntVector)
| PyList (l : list Data)
| PyTuple (l : list Data).

(** [to_device(data, device)]: a list or a tuple becomes the list of its
    moved elements; a tensor is moved with [.to(device)], which keeps its
    values. *)
Fixpoint to_device (d : Data) (device : Device) : Data :=
  match d with
  | PyList l => PyList (map (fun x => to_device x device) l)
  | PyTuple l => PyList (map (fun x => to_device x device) l)
  | FloatTensor _ x => FloatTensor device x
  | LongTensor _ y => LongTensor device y
  end.

(** What unpacking yields: an element of a list or tuple, or one of the
    two rows of a tensor (a float tensor of three dimensions, a long
    tensor of none). *)
Inductive Item : Type :=
| Whole (d : Data)
| Sample (dev : Device) (x : Image)
| Scalar (dev : Device) (y : Z).

(** [images, labels = batch]: any iterable of exactly two items unpacks,
    a tensor along its first dimension. *)
Definition unpack_batch (batch : Data) : res (Item * Item) :=
  match batch with
  | PyList [a; b] | PyTuple [a; b] => Ok (Whole a, Whole b)
  | FloatTensor dev [x1; x2] => Ok (Sample dev x1, Sample dev x2)
  | LongTensor dev [y1; y2] => Ok (Scalar dev y1, Scalar dev y2)
  | _ => Err ValueError
  end.

(** [self(images)]: the forward pass on a float batch; the rows of a
    three-dimensional tensor are its channels; a long tensor is refused
    by the first layer, a list has no [view], a tensor of no dimension
    has no size. *)
Definition call_model (m : CIFARModel) (images : Item) : res Matrix :=
  match images with
  | Whole (FloatTensor _ x) => forward m x
  | Whole (LongTensor _ _) => Err RuntimeError
  | Whole (PyList _) | Whole (PyTuple _) => Err AttributeError
  | Sample _ x => forward m (map (fun channel => [channel]) x)
  | Scalar _ _ => Err IndexError
  end.

(** Number of classes of a batch of score rows. *)
Definition classes_of (out : Matrix) : nat :=
  match out with
  | [] => 0
  | row :: _ => length row
  end.

(** A label cross-entropy accepts: a class index, or the ignored index. *)
Definition label_ok (classes : nat) (l : Z) : bool :=
  ((0 <=? l)%Z && (l <? Z.of_nat classes)%Z) || (l =? -100)%Z.

(** One dataset item: an image and its class label. *)
Definition Dataset := list (Image * Z).

Record Metrics : Type := mkMetrics { val_loss : Q; val_acc : Q }.

(** Entries of a parameter dictionary. *)
Inductive Tensor : Type :=
| Tensor1 (v : Vector)
| Tensor2 (w : Matrix).

Definition StateDict := list (String.string * Tensor).

(* ------------------------------------------------------------------ *)
(** ** The library interface

    Primitives of PyTorch that the script calls and that are not a
    rational function of their arguments, or whose algorithm lives in the
    library: the generator, the layer initialiser, the dataset split, the
    batch sampler, cross-entropy with its gradient, and the checkpoint
    format with the one law the script relies on. *)

Class TorchLib : Type := {
  RNG : Type;
  manual_seed : Z -> RNG;
  (* nn.Linear(in_features, out_features) *)
  nn_Linear : nat -> nat -> RNG -> Linear * RNG;
  (* random_split(dataset, [n1, n2]) *)
  random_split : Dataset -> Z -> Z -> RNG -> (Dataset * Dataset) * RNG;
  (* one traversal of DataLoader(ds, batch_size, shuffle) *)
  loader_batches : Dataset -> nat -> bool -> RNG -> list Data * RNG;
  loader_len : Dataset -> nat -> nat;
  (* the value of F.cross_entropy(out, labels) where it is defined *)
  cross_entropy_value : Matrix -> IntVector -> Q;
  (* gradient of cross_entropy(forward(m, images), labels) in the parameters *)
  cross_entropy_grad : CIFARModel -> list Image -> IntVector -> Grads;
  (* torch.save / torch.load payloads *)
  Checkpoint : Type;
  torch_pickle : StateDict -> Checkpoint;
  torch_unpickle : Checkpoint -> res StateDict;
  unpickle_pickle : forall d, torch_unpickle (torch_pickle d) = Ok d
}.

Section Script.

Context {L : TorchLib}.

(** A data loader: each traversal yields a sequence of batches and may
    advance the generator (shuffling); [dl_len] is its [__len__]. *)
Record Loader : Type := mkLoader {
  dl_iter : RNG -> list Data * RNG;
  dl_len : nat
}.

(** [DataLoader(ds, batch_size, shuffle=...)] *)
Definition DataLoader (ds : Dataset) (batch_size : nat) (shuffle : bool) : Loader :=
  mkLoader (loader_batches ds batch_size shuffle) (loader_len ds batch_size).

(** [DeviceDataLoader(dl, device)], lines 113-127: [__iter__] walks the
    wrapped loader and yields each batch after [to_device]; [__len__] is
    the wrapped loader's. *)
Definition DeviceDataLoader (dl : Loader) (device : Device) : Loader :=
  mkLoader
    (fun rng => let (bs, rng') := dl_iter dl rng in
                (map (fun b => to_device b device) bs, rng'))
    (dl_len dl).

(** Calls that reach the library or the terminal, in program order. *)
Inductive Event : Type :=
| Ev_cross_entropy (batch : Data)
| Ev_backward
| Ev_step (lr : Q)
| Ev_zero_grad
| Ev_print_cuda (available : bool)
| Ev_print_device (device : Device)
| Ev_print_model
| Ev_print_epoch (epoch : nat) (result : Metrics)
| Ev_print_history (history : list Metrics)
| Ev_print_result (result : Metrics).

(** The mutable state the script works on. *)
Record State : Type := mkState {
  st_model : CIFARModel;                          (* the model object *)
  st_rng : RNG;                                   (* global generator *)
  st_trace : list Event;                          (* oldest first *)
  st_files : list (String.string * Checkpoint)    (* files written *)
}.

Inductive Outcome (A : Type) : Type :=
| Returned (a : A) (st : State)
| Raised (e : Exn) (st : State).
Arguments Returned {A} a st.
Arguments Raised {A} e st.

Definition M (A : Type) : Type := State -> Outcome A.

Definition ret {A} (a : A) : M A := fun st => Returned a st.

Definition bind {A B} (c : M A) (k : A -> M B) : M B :=
  fun st => match c st with
            | Returned a st' => k a st'
            | Raised e st' => Raised e st'
            end.

Definition lift {A} (r : res A) : M A :=
  fun st => match r with
            | Ok a => Returned a st
            | Err e => Raised e st
            end.

Definition get_model : M CIFARModel := fun st => Returned (st_model st) st.

Definition update_model (f : CIFARModel -> CIFARModel) : M unit :=
  fun st => Returned tt (mkState (f (st_model st)) (st_rng st) (st_trace st) (st_files st)).

Definition emit (ev : Event) : M unit :=
  fun st => Returned tt (mkState (st_model st) (st_rng st) (st_trace st ++ [ev]) (st_files st)).

(** [iter(loader)] run to exhaustion. *)
Definition batches_of (dl : Loader) : M (list Data) :=
  fun st => let (bs, rng') := dl_iter dl (st_rng st) in
            Returned bs (mkState (st_model st) rng' (st_trace st) (st_files st)).

End Script.

Arguments Returned {L A} a st.
Arguments Raised {L A} e st.

Declare Scope script_scope.
Delimit Scope script_scope with script.
Notation "x <- c ;; k" := (bind c (fun x => k))
  (at level 61, c at next level, right associativity) : script_scope.
Notation "c ;;; k" := (bind c (fun _ => k))
  (at level 61, right associativity) : script_scope.

Local Open Scope script_scope.

Section Training.

Context {L : TorchLib}.

(** [for x in xs: body(x)] *)
Fixpoint for_each {A} (body : A -> M unit) (xs : list A) : M unit :=
  match xs with
  | [] => ret tt
  | x :: t => body x ;;; for_each body t
  end.

(** [[f(x) for x in xs]] *)
Fixpoint map_M {A B} (f : A -> M B) (xs : list A) : M (list B) :=
  match xs with
  | [] => ret []
  | x :: t => y <- f x ;; ys <- map_M f t ;; ret (y :: ys)
  end.

(** A loss tensor: its value, and the inputs its graph was built from. *)
Record LossTensor : Type := mkLoss {
  loss_value : Q;
  loss_images : list Image;
  loss_labels : IntVector
}.

(** [F.cross_entropy(out, labels)]: the target must be a long tensor
    with one label per row of scores ([ValueError] otherwise), each label
    a class index or the ignored index ([IndexError] otherwise). *)
Definition F_cross_entropy (out : Matrix) (labels : Item) : res Q :=
  match labels with
  | Whole (LongTensor _ y) =>
      if negb (Nat.eqb (length y) (length out)) then Err ValueError
      else if forallb (label_ok (classes_of out)) y
           then Ok (cross_entropy_value out y)
           else Err IndexError
  | Whole (FloatTensor _ _) | Sample _ _ | Scalar _ _ => Err RuntimeError
  | Whole (PyList _) | Whole (PyTuple _) => Err TypeError
  end.

(** The loss tensor of a batch cross-entropy has accepted: such a batch
    is a float tensor of images with a long tensor of labels. *)
Definition loss_tensor (loss : Q) (images labels : Item) : res LossTensor :=
  match images, labels with
  | Whole (FloatTensor _ x), Whole (LongTensor _ y) => Ok (mkLoss loss x y)
  | _, _ => Err RuntimeError
  end.

(** [accuracy(out, labels)] on the labels cross-entropy has accepted. *)
Definition accuracy_of (out : Matrix) (labels : Item) : res Q :=
  match labels with
  | Whole (LongTensor _ y) => accuracy out y
  | _ => Err RuntimeError
  end.

(** [CIFARModel.training_step], lines 61-65. *)
Definition training_step (batch : Data) : M LossTensor :=
  p <- lift (unpack_batch batch) ;;
  let (images, labels) := p in
  m <- get_model ;;
  out <- lift (call_model m images) ;;
  emit (Ev_cross_entropy batch) ;;;
  loss <- lift (F_cross_entropy out labels) ;;
  lift (loss_tensor loss images labels).

(** [CIFARModel.validation_step], lines 67-72. *)
Definition validation_step (batch : Data) : M Metrics :=
  p <- lift (unpack_batch batch) ;;
  let (images, labels) := p in
  m <- get_model ;;
  out <- lift (call_model m images) ;;
  emit (Ev_cross_entropy batch) ;;;
  loss <- lift (F_cross_entropy out labels) ;;
  acc <- lift (accuracy_of out labels) ;;
  ret (mkMetrics loss acc).

(** [torch.stack(xs).mean()] on scalars: stacking nothing raises. *)
Definition stack_mean (xs : list Q) : res Q :=
  match xs with
  | [] => Err RuntimeError
  | _ => Ok (Qsum xs / inject_Z (Z.of_nat (length xs)))
  end.

(** [CIFARModel.validation_epoch_end], lines 74-79. *)
Definition validation_epoch_end (outputs : list Metrics) : res Metrics :=
  let batch_losses := map val_loss outputs in
  res_bind (stack_mean batch_losses) (fun epoch_loss =>
  let batch_accs := map val_acc outputs in
  res_bind (stack_mean batch_accs) (fun epoch_acc =>
  Ok (mkMetrics epoch_loss epoch_acc))).

(** [CIFARModel.epoch_end], lines 81-82: one printed line. *)
Definition epoch_end (epoch : nat) (result : Metrics) : M unit :=
  emit (Ev_print_epoch epoch result).

(** [evaluate(model, val_loader)], lines 133-135. *)
Definition evaluate (val_loader : Loader) : M Metrics :=
  bs <- batches_of val_loader ;;
  outputs <- map_M validation_step bs ;;
  lift (validation_epoch_end outputs).

(** [loss.backward()] *)
Definition backward (loss : LossTensor) : M unit :=
  emit Ev_backward ;;;
  update_model (fun m =>
    accumulate_grads (cross_entropy_grad m (loss_images loss) (loss_labels loss)) m).

(** The optimizer object made by [opt_func(model.parameters(), lr)]. *)
Record Optimizer : Type := SGD { opt_lr : Q }.

Definition optimizer_step (opt : Optimizer) : M unit :=
  emit (Ev_step (opt_lr opt)) ;;; update_model (sgd_step (opt_lr opt)).

Definition optimizer_zero_grad (opt : Optimizer) : M unit :=
  emit Ev_zero_grad ;;; update_model zero_grad.

(** The body of [for batch in train_loader], lines 143-146. *)
Definition train_on_batch (optimizer : Optimizer) (batch : Data) : M unit :=
  loss <- training_step batch ;;
  backward loss ;;;
  optimizer_step optimizer ;;;
  optimizer_zero_grad optimizer.

(** [for epoch in range(epochs)], lines 140-150; [n] epochs remain and
    [epoch] is the loop variable. *)
Fixpoint fit_loop (n epoch : nat) (optimizer : Optimizer)
  (train_loader val_loader : Loader) (history : list Metrics)
  : M (list Metrics) :=
  match n with
  | O => ret history
  | S n' =>
      bs <- batches_of train_loader ;;
      for_each (train_on_batch optimizer) bs ;;;
      result <- evaluate val_loader ;;
      epoch_end epoch result ;;;
      fit_loop n' (S epoch) optimizer train_loader val_loader (history ++ [result])
  end.

(** [fit(epochs, lr, model, train_loader, val_loader)], lines 137-151,
    with the default [opt_func]. *)
Definition fit (epochs : nat) (lr : Q) (train_loader val_loader : Loader)
  : M (list Metrics) :=
  let history := [] in
  let optimizer := SGD lr in
  fit_loop epochs 0 optimizer train_loader val_loader history.

(** Lines 159-166: the baseline evaluation and the three training calls. *)
Definition training_schedule (train_loader val_loader : Loader)
  : M (list Metrics) :=
  r0 <- evaluate val_loader ;;
  let history := [r0] in
  emit (Ev_print_history history) ;;;
  h1 <- fit 5 (5 # 10) train_loader val_loader ;;
  let history := history ++ h1 in
  h2 <- fit 25 (1 # 10) train_loader val_loader ;;
  let history := history ++ h2 in
  h3 <- fit 15 (5 # 100) train_loader val_loader ;;
  let history := history ++ h3 in
  ret history.

(** The run of the claim about zero epochs: the baseline evaluation
    followed by a [fit] of no epoch. *)
Definition baseline_then_fit0 (lr : Q) (train_loader val_loader : Loader)
  : M (list Metrics) :=
  r0 <- evaluate val_loader ;;
  let history := [r0] in
  h <- fit 0 lr train_loader val_loader ;;
  ret (history ++ h).

End Training.

(* ------------------------------------------------------------------ *)
(** ** Parameter dictionaries and the checkpoint (lines 190-199) *)

(** [model.state_dict()] *)
Definition state_dict (m : CIFARModel) : StateDict :=
  [ ("linear1.weight"%string, Tensor2 (data (weight (linear1 m))));
    ("linear1.bias"%string,   Tensor1 (data (bias (linear1 m))));
    ("linear2.weight"%string, Tensor2 (data (weight (linear2 m))));
    ("linear2.bias"%string,   Tensor1 (data (bias (linear2 m))));
    ("linear3.weight"%string, Tensor2 (data (weight (linear3 m))));
    ("linear3.bias"%string,   Tensor1 (data (bias (linear3 m)))) ].

Definition param_names : list String.string :=
  [ "linear1.weight"%string; "linear1.bias"%string; "linear2.weight"%string; "linear2.bias"%string;
    "linear3.weight"%string; "linear3.bias"%string ].

Fixpoint dict_get {A} (key : String.string) (d : list (String.string * A))
  : option A :=
  match d with
  | [] => None
  | (k, v) :: t => if String.eqb key k then Some v else dict_get key t
  end.

Fixpoint shape_eqb (a b : list nat) : bool :=
  match a, b with
  | [], [] => true
  | x :: a', y :: b' => Nat.eqb x y && shape_eqb a' b'
  | _, _ => false
  end.

(** Row lengths of a matrix; two matrices of one shape agree on them. *)
Definition row_lengths (w : Matrix) : list nat := map (@length Q) w.

(** Loading one entry: the value is copied when the key is present with
    the parameter's shape; otherwise the parameter is left and an error
    is recorded. *)
Definition load_weight (key : String.string) (sd : StateDict)
  (p : Param Matrix) : Param Matrix * bool :=
  match dict_get key sd with
  | Some (Tensor2 w) =>
      if shape_eqb (row_lengths (data p)) (row_lengths w)
      then (mkParam w (grad p), true) else (p, false)
  | _ => (p, false)
  end.

Definition load_bias (key : String.string) (sd : StateDict)
  (p : Param Vector) : Param Vector * bool :=
  match dict_get key sd with
  | Some (Tensor1 v) =>
      if Nat.eqb (length (data p)) (length v)
      then (mkParam v (grad p), true) else (p, false)
  | _ => (p, false)
  end.

(** [model.load_state_dict(sd)] with the default [strict=True]: every
    matching entry is copied, then a missing key, a shape mismatch or an
    unexpected key raises. *)
Definition load_state_dict (sd : StateDict) (m : CIFARModel)
  : CIFARModel * bool :=
  let (w1, k1) := load_weight "linear1.weight"%string sd (weight (linear1 m)) in
  let (b1, k2) := load_bias "linear1.bias"%string sd (bias (linear1 m)) in
  let (w2, k3) := load_weight "linear2.weight"%string sd (weight (linear2 m)) in
  let (b2, k4) := load_bias "linear2.bias"%string sd (bias (linear2 m)) in
  let (w3, k5) := load_weight "linear3.weight"%string sd (weight (linear3 m)) in
  let (b3, k6) := load_bias "linear3.bias"%string sd (bias (linear3 m)) in
  let expected :=
    forallb (fun kv => existsb (String.eqb (fst kv)) param_names) sd in
  (mkModel (mkLinear w1 b1) (mkLinear w2 b2) (mkLinear w3 b3),
   k1 && k2 && k3 && k4 && k5 && k6 && expected).

(** Two models of one architecture: each pair of tensors has one shape. *)
Definition same_architecture (a b : CIFARModel) : bool :=
  let lin x y :=
    shape_eqb (row_lengths (data (weight x))) (row_lengths (data (weight y)))
    && Nat.eqb (length (data (bias x))) (length (data (bias y))) in
  lin (linear1 a) (linear1 b) && lin (linear2 a) (linear2 b)
  && lin (linear3 a) (linear3 b).

Section Checkpoint.

Context {L : TorchLib}.

Definition set_model (m : CIFARModel) (st : State) : State :=
  mkState m (st_rng st) (st_trace st) (st_files st).

(** Run a computation on another model object, then put the script's
    [model] back; the other object's final state is returned. *)
Definition on_model {A} (m2 : CIFARModel) (c : M A) : M (A * CIFARModel) :=
  fun st => match c (set_model m2 st) with
            | Returned a st' => Returned (a, st_model st') (set_model (st_model st) st')
            | Raised e st' => Raised e (set_model (st_model st) st')
            end.

(** [torch.save(obj, path)]: the file is created or overwritten. *)
Definition torch_save (obj : StateDict) (path : String.string) : M unit :=
  fun st => Returned tt
    (mkState (st_model st) (st_rng st) (st_trace st)
             ((path, torch_pickle obj) :: st_files st)).

(** [torch.load(path)] *)
Definition torch_load (path : String.string) : M StateDict :=
  fun st => match dict_get path (st_files st) with
            | None => Raised FileNotFoundError st
            | Some c => lift (torch_unpickle c) st
            end.

Definition checkpoint_path : String.string := "cifar10-nn-weights.pth"%string.

(** Lines 190-199, for a fresh [model2]: save the parameters of [model],
    load them into [model2], evaluate [model2] on the test loader. *)
Definition sanity_check (model2 : CIFARModel) (test_loader : Loader)
  : M Metrics :=
  m <- get_model ;;
  torch_save (state_dict m) checkpoint_path ;;;
  sd <- torch_load checkpoint_path ;;
  let (model2', ok) := load_state_dict sd model2 in
  if ok then
    r <- on_model model2' (result <- evaluate test_loader ;;
                           emit (Ev_print_result result) ;;; ret result) ;;
    ret (fst r)
  else fun st => Raised RuntimeError st.

(** The value a computation returns or the exception it raises. *)
Definition value_of {A} (o : Outcome A) : res A :=
  match o with
  | Returned a _ => Ok a
  | Raised e _ => Err e
  end.

Definition final_state {A} (o : Outcome A) : State :=
  match o with
  | Returned _ st => st
  | Raised _ st => st
  end.

(** [CIFARModel(in_size, hidden_size, out_size)], lines 37-44. *)
Definition CIFARModel_new (in_size hidden_size out_size : nat) : M CIFARModel :=
  fun st =>
    let (l1, r1) := nn_Linear in_size hidden_size (st_rng st) in
    let (l2, r2) := nn_Linear hidden_size hidden_size r1 in
    let (l3, r3) := nn_Linear hidden_size out_size r2 in
    Returned (mkModel l1 l2 l3)
             (mkState (st_model st) r3 (st_trace st) (st_files st)).

Definition input_size := 1024%nat.
Definition hidden_size := 128%nat.
Definition num_classes := 10%nat.
Definition val_size := 10000%Z.
Definition batch_size := 64%nat.

(** Lines 13-159: seed the generator, split the data, build the loaders
    and the model, and evaluate it before any training.  The result is
    the first entry of [history]. *)
Definition initial_history (cuda_is_available : bool) (dataset : Dataset)
  : M Metrics :=
  fun st =>
  let rng := manual_seed 42 in
  let train_size := (Z.of_nat (length dataset) - val_size)%Z in
  let '((train_ds, val_ds), rng) := random_split dataset train_size val_size rng in
  let train_loader := DataLoader train_ds batch_size true in
  let val_loader := DataLoader val_ds (batch_size * 2) false in
  let st := mkState (st_model st) rng (st_trace st) (st_files st) in
  (model <- CIFARModel_new input_size hidden_size num_classes ;;
   update_model (fun _ => model) ;;;
   emit (Ev_print_cuda cuda_is_available) ;;;
   let device := get_default_device cuda_is_available in
   emit (Ev_print_device device) ;;;
   let train_loader := DeviceDataLoader train_loader device in
   let val_loader := DeviceDataLoader val_loader device in
   model <- CIFARModel_new input_size hidden_size num_classes ;;
   update_model (fun _ => model) ;;;
   emit Ev_print_model ;;;
   evaluate val_loader) st.

End Checkpoint.

(* ------------------------------------------------------------------ *)
(** ** The metrics record (lines 209-214) *)

(** The dictionary display as written: each key with the text of the
    expression bound to it. *)
Definition metrics_source : list (string * string) :=
  [ ("val_acc"%string,   "0.4151"%string);
    ("val_loss"%string,  "1.6812"%string);
    ("test_acc"%string,  "0.4128"%string);
    ("test_loss"%string, "1.6940."%string) ].

(** *** Decimal literals of the language

    [digitpart ::= digit (["_"] digit)*], [fraction ::= "." digitpart],
    [exponent ::= ("e" | "E") ["+" | "-"] digitpart]; a number is
    [digitpart], [[digitpart] fraction] or [digitpart "."], each with an
    optional exponent.  Every scanner returns the text left after the
    longest match. *)

Definition is_digit (c : ascii) : bool :=
  let n := nat_of_ascii c in (48 <=? n)%nat && (n <=? 57)%nat.

Fixpoint digits_tail (l : list ascii) : list ascii :=
  match l with
  | [] => []
  | c :: t =>
      if is_digit c then digits_tail t
      else if Ascii.eqb c "_"%char then
             match t with
             | d :: t' => if is_digit d then digits_tail t' else l
             | [] => l
             end
           else l
  end.

Definition digitpart (l : list ascii) : option (list ascii) :=
  match l with
  | c :: t => if is_digit c then Some (digits_tail t) else None
  | [] => None
  end.

Definition fraction (l : list ascii) : option (list ascii) :=
  match l with
  | c :: t => if Ascii.eqb c "."%char then digitpart t else None
  | [] => None
  end.

Definition exponent (l : list ascii) : option (list ascii) :=
  match l with
  | c :: t =>
      if Ascii.eqb c "e"%char || Ascii.eqb c "E"%char then
        match t with
        | s :: u => if Ascii.eqb s "+"%char || Ascii.eqb s "-"%char
                    then digitpart u else digitpart t
        | [] => None
        end
      else None
  | [] => None
  end.

Definition opt_exponent (l : list ascii) : list ascii :=
  match exponent l with
  | Some r => r
  | None => l
  end.

Definition scan_number (l : list ascii) : option (list ascii) :=
  match digitpart l with
  | Some r1 =>
      match r1 with
      | c :: r2 =>
          if Ascii.eqb c "."%char then
            match digitpart r2 with
            | Some r3 => Some (opt_exponent r3)
            | None => Some (opt_exponent r2)
            end
          else Some (opt_exponent r1)
      | [] => Some []
      end
  | None =>
      match fraction l with
      | Some r => Some (opt_exponent r)
      | None => None
      end
  end.

(** The whole text is one number. *)
Definition is_number_literal (s : string) : bool :=
  match scan_number (list_ascii_of_string s) with
  | Some [] => true
  | _ => false
  end.

(** A dictionary display evaluates only if each bound expression does;
    here every one is meant to be a number. *)
Definition numeric_record (src : list (string * string)) : bool :=
  forallb (fun kv => is_number_literal (snd kv)) src.

(* ------------------------------------------------------------------ *)
(** ** A small instance of the library interface and sample data

    Used to run the definitions on concrete inputs.  The generator is a
    counter, a layer is filled with a constant, a loader collates its
    whole dataset into one batch, the loss is the sum of squared scores
    and its gradient is taken to be the parameter itself. *)

Definition demo_Linear (i o r : nat) : Linear * nat :=
  (mkLinear (mkParam (repeat (repeat (1 # 2) i) o) None)
            (mkParam (repeat 0 o) None), S r).

Definition demo_batches (ds : Dataset) (bs : nat) (shuffle : bool) (r : nat)
  : list Data * nat :=
  match ds with
  | [] => ([], r)
  | _ => ([PyTuple [FloatTensor cpu (map fst ds); LongTensor cpu (map snd ds)]],
          if shuffle then S r else r)
  end.

Definition demo_grad (m : CIFARModel) (_ : list Image) (_ : IntVector) : Grads :=
  mkGrads (data (weight (linear1 m))) (data (bias (linear1 m)))
          (data (weight (linear2 m))) (data (bias (linear2 m)))
          (data (weight (linear3 m))) (data (bias (linear3 m))).

Definition demo_lib : TorchLib := {|
  RNG := nat;
  manual_seed := Z.to_nat;
  nn_Linear := demo_Linear;
  random_split := fun ds n1 n2 r =>
    ((firstn (Z.to_nat n1) ds, skipn (Z.to_nat n1) ds), S r);
  loader_batches := demo_batches;
  loader_len := fun ds bs => match ds with [] => 0%nat | _ => 1%nat end;
  cross_entropy_value := fun out labels => Qsum (map (fun row => dot row row) out);
  cross_entropy_grad := demo_grad;
  Checkpoint := StateDict;
  torch_pickle := fun d => d;
  torch_unpickle := fun c => Ok c;
  unpickle_pickle := fun d => eq_refl
|}.

(** Four samples over three classes; the arg-max is the label on the
    first three. *)
Definition demo_scores : Matrix :=
  [ [1 # 10; 7 # 10; 2 # 10];
    [9 # 10; 0; 1 # 10];
    [3 # 10; 3 # 10; 4 # 10];
    [5 # 10; 5 # 10; 0] ].

Definition demo_labels : IntVector := [1; 0; 2; 1]%Z.

(** A 2-2-2 network, a second one of the same shape, and two images. *)
Definition demo_layer (w : Matrix) (b : Vector) : Linear :=
  mkLinear (mkParam w None) (mkParam b None).

Definition demo_model : CIFARModel :=
  mkModel (demo_layer [[1; 0]; [0; 1]] [0; 0])
          (demo_layer [[1; 1]; [1; -1 # 1]] [0; 1])
          (demo_layer [[1; 0]; [0; 1]] [0; 0]).

Definition demo_model2 : CIFARModel :=
  mkModel (demo_layer [[0; 0]; [0; 0]] [1; 1])
          (demo_layer [[0; 0]; [0; 0]] [1; 1])
          (demo_layer [[0; 0]; [0; 0]] [1; 1]).

Definition demo_images : list Image := [ [[[1; 2]]]; [[[3; 1]]] ].

Definition demo_batch : Data :=
  PyTuple [FloatTensor cpu demo_images; LongTensor cpu [0; 1]%Z].

Definition demo_loader : @Loader demo_lib :=
  mkLoader (fun r : @RNG demo_lib => ([demo_batch; demo_batch], S r)) 2.

Definition demo_state : @State demo_lib :=
  @mkState demo_lib demo_model 0%nat [] [].

(** A loader that yields nothing, and one whose two batches have one and
    three samples: the first batch is classified correctly by
    [demo_model], no sample of the second is. *)
Definition demo_empty_loader : @Loader demo_lib :=
  mkLoader (fun r : @RNG demo_lib => ([], r)) 0.

Definition demo_uneven_loader : @Loader demo_lib :=
  mkLoader (fun r : @RNG demo_lib =>
              ([ PyList [FloatTensor cpu [ [[[1; 2]]] ]; LongTensor cpu [0]%Z];
                 PyList [FloatTensor cpu [ [[[1; 2]]]; [[[1; 2]]]; [[[3; 1]]] ];
                         LongTensor cpu [1; 1; 1]%Z] ], r)) 2.

(* ------------------------------------------------------------------ *)
(** ** Vocabulary of the statements *)

(** Number of scores a layer produces. *)
Definition out_features (l : Linear) : nat :=
  length (combine (data (weight l)) (data (bias l))).

(** Number of entries a layer expects in a sample. *)
Definition in_features (l : Linear) : nat :=
  hd 0%nat (row_lengths (data (weight l))).

(** A layer that takes [n] entries: it has at least one row, every row
    has [n] entries, and the bias has one entry per row. *)
Definition layer_ok (n : nat) (l : Linear) : bool :=
  let rows := row_lengths (data (weight l)) in
  negb (Nat.eqb (length rows) 0)
  && forallb (Nat.eqb n) rows
  && Nat.eqb (length (data (bias l))) (length rows).

(** A model as the constructor builds it: each layer takes what the layer
    before it produces, and the first takes at least one entry. *)
Definition well_shaped (m : CIFARModel) : bool :=
  negb (Nat.eqb (in_features (linear1 m)) 0)
  && layer_ok (in_features (linear1 m)) (linear1 m)
  && layer_ok (out_features (linear1 m)) (linear2 m)
  && layer_ok (out_features (linear2 m)) (linear3 m).

(** A well-shaped model for images of [pixels] entries and [classes]
    classes. *)
Definition fits (pixels classes : nat) (m : CIFARModel) : Prop :=
  well_shaped m = true /\
  in_features (linear1 m) = pixels /\
  out_features (linear3 m) = classes.

(** The two tensors of a batch that is a pair of a float tensor and a
    long tensor. *)
Definition batch_tensors (b : Data) : option (list Image * IntVector) :=
  match b with
  | PyList [FloatTensor _ x; LongTensor _ y]
  | PyTuple [FloatTensor _ x; LongTensor _ y] => Some (x, y)
  | _ => None
  end.

(** A batch as the data model has it, for images of [pixels] entries and
    [classes] classes: a pair of an image tensor with at least one
    sample, every image of [pixels] entries, and a label tensor with one
    label per image, every label a class index. *)
Definition batch_ok (pixels classes : nat) (b : Data) : bool :=
  match batch_tensors b with
  | Some (x, y) =>
      negb (Nat.eqb (length x) 0)
      && forallb (fun img => Nat.eqb (length (flatten img)) pixels) x
      && Nat.eqb (length y) (length x)
      && forallb (fun l => (0 <=? l)%Z && (l <? Z.of_nat classes)%Z) y
  | None => false
  end.

(** No gradient is accumulated on any parameter. *)
Definition grads_clear (m : CIFARModel) : Prop :=
  grad (weight (linear1 m)) = None /\ grad (bias (linear1 m)) = None /\
  grad (weight (linear2 m)) = None /\ grad (bias (linear2 m)) = None /\
  grad (weight (linear3 m)) = None /\ grad (bias (linear3 m)) = None.

(** [p'] is [p] moved against the gradient [g] by [lr], entry by entry. *)
Definition stepped_vec (lr : Q) (p g p' : Vector) : Prop :=
  length p' = length p /\
  forall i x y, nth_error p i = Some x -> nth_error g i = Some y ->
                nth_error p' i = Some (x - lr * y).

Definition stepped_mat (lr : Q) (p g p' : Matrix) : Prop :=
  length p' = length p /\
  forall i r s, nth_error p i = Some r -> nth_error g i = Some s ->
                exists r', nth_error p' i = Some r' /\ stepped_vec lr r s r'.

(** One descent step: [m'] has the parameters of [m] moved against the
    six gradients [g] by [lr], and no accumulated gradient. *)
Definition one_step (lr : Q) (g : Grads) (m m' : CIFARModel) : Prop :=
  stepped_mat lr (data (weight (linear1 m))) (g_w1 g) (data (weight (linear1 m'))) /\
  stepped_vec lr (data (bias (linear1 m))) (g_b1 g) (data (bias (linear1 m'))) /\
  stepped_mat lr (data (weight (linear2 m))) (g_w2 g) (data (weight (linear2 m'))) /\
  stepped_vec lr (data (bias (linear2 m))) (g_b2 g) (data (bias (linear2 m'))) /\
  stepped_mat lr (data (weight (linear3 m))) (g_w3 g) (data (weight (linear3 m'))) /\
  stepped_vec lr (data (bias (linear3 m))) (g_b3 g) (data (bias (linear3 m'))) /\
  grads_clear m'.

(** The arithmetic mean of a sequence of scalars. *)
Definition arithmetic_mean (xs : list Q) : Q :=
  Qsum xs / inject_Z (Z.of_nat (length xs)).

Section Vocabulary.

Context {L : TorchLib}.

(** The state after some more events. *)
Definition logged (evs : list Event) (st : State) : State :=
  mkState (st_model st) (st_rng st) (st_trace st ++ evs) (st_files st).

(** [r] holds the loss and the accuracy of model [m] on batch [b]: the
    cross-entropy and the accuracy of the scores the forward pass gives
    for the images of [b], against the labels of [b]. *)
Definition step_result (m : CIFARModel) (b : Data) (r : Metrics) : Prop :=
  exists images labels out,
    batch_tensors b = Some (images, labels) /\
    forward m images = Ok out /\
    val_loss r = cross_entropy_value out labels /\
    accuracy out labels = Ok (val_acc r).

(** The value of a validation step as a function of the model and the
    batch. *)
Definition validation_value (m : CIFARModel) (b : Data) : res Metrics :=
  res_bind (unpack_batch b) (fun p =>
  let (images, labels) := p in
  res_bind (call_model m images) (fun out =>
  res_bind (F_cross_entropy out labels) (fun loss =>
  res_bind (accuracy_of out labels) (fun acc =>
  Ok (mkMetrics loss acc))))).

(** The value of a training step as a function of the model and the
    batch. *)
Definition training_value (m : CIFARModel) (b : Data) : res LossTensor :=
  res_bind (unpack_batch b) (fun p =>
  let (images, labels) := p in
  res_bind (call_model m images) (fun out =>
  res_bind (F_cross_entropy out labels) (fun loss =>
  loss_tensor loss images labels))).

(** The calls one training batch gives rise to, in order. *)
Definition batch_calls (lr : Q) (b : Data) : list Event :=
  [Ev_cross_entropy b; Ev_backward; Ev_step lr; Ev_zero_grad].

(** The calls of one epoch: the training batches in the order yielded,
    the validation batches, and the printed line. *)
Definition epoch_calls (lr : Q) (epoch : nat)
  (train_bs val_bs : list Data) (result : Metrics) : list Event :=
  flat_map (batch_calls lr) train_bs
  ++ map Ev_cross_entropy val_bs
  ++ [Ev_print_epoch epoch result].

(** The batches the two loaders yield in [n] consecutive epochs started
    with generator state [rng], and the generator state afterwards. *)
Fixpoint epoch_batches (n : nat) (train val : Loader) (rng : RNG)
  : list (list Data * list Data) * RNG :=
  match n with
  | O => ([], rng)
  | S n' =>
      let (tb, r1) := dl_iter train rng in
      let (vb, r2) := dl_iter val r1 in
      let (rest, r3) := epoch_batches n' train val r2 in
      ((tb, vb) :: rest, r3)
  end.

(** The calls of consecutive epochs numbered from [epoch], given the
    batches and the result of each. *)
Fixpoint run_calls (lr : Q) (epoch : nat)
  (bss : list (list Data * list Data)) (history : list Metrics) : list Event :=
  match bss, history with
  | (tb, vb) :: bss', r :: history' =>
      epoch_calls lr epoch tb vb r ++ run_calls lr (S epoch) bss' history'
  | _, _ => []
  end.

(** The model after one pass of the loop body on a batch: when the
    training step returns a loss, its gradient is accumulated, one
    descent step is taken and the gradients are cleared; when it raises,
    the model is as it was. *)
Definition trained_on (lr : Q) (m : CIFARModel) (b : Data) : CIFARModel :=
  match training_value m b with
  | Ok loss =>
      zero_grad (sgd_step lr
        (accumulate_grads
           (cross_entropy_grad m (loss_images loss) (loss_labels loss)) m))
  | Err _ => m
  end.

(** The model after the training phases of consecutive epochs. *)
Definition trained (lr : Q) (bss : list (list Data * list Data))
  (m : CIFARModel) : CIFARModel :=
  fold_left (fun m' tv => fold_left (trained_on lr) (fst tv) m') bss m.

(** The history of consecutive epochs as a function of the batches and
    of the model they start from. *)
Fixpoint expected_history (lr : Q) (bss : list (list Data * list Data))
  (m : CIFARModel) : res (list Metrics) :=
  match bss with
  | [] => Ok []
  | (tb, vb) :: rest =>
      let m' := fold_left (trained_on lr) tb m in
      res_bind (res_bind (res_map (validation_value m') vb) validation_epoch_end)
        (fun r => res_bind (expected_history lr rest m') (fun h => Ok (r :: h)))
  end.

(** [trained_by lr bs m m']: processing the batches [bs] in order, each
    by one descent step against the gradient of its own loss at the
    model reached so far, leads from [m] to [m']. *)
Inductive trained_by (lr : Q) : list Data -> CIFARModel -> CIFARModel -> Prop :=
| trained_nil m : trained_by lr [] m m
| trained_cons b bs images labels m m1 m' :
    batch_tensors b = Some (images, labels) ->
    one_step lr (cross_entropy_grad m images labels) m m1 ->
    trained_by lr bs m1 m' ->
    trained_by lr (b :: bs) m m'.

(** [epochs_run lr bss m history m']: epoch after epoch, a training phase
    on the training batches, then one evaluation of the model so trained
    on the validation batches, whose reduced result is the epoch's entry
    of [history]. *)
Inductive epochs_run (lr : Q)
  : list (list Data * list Data) -> CIFARModel -> list Metrics -> CIFARModel -> Prop :=
| epochs_nil m : epochs_run lr [] m [] m
| epochs_cons tb vb rest m m1 m' rs r h :
    trained_by lr tb m m1 ->
    Forall2 (step_result m1) vb rs ->
    validation_epoch_end rs = Ok r ->
    epochs_run lr rest m1 h m' ->
    epochs_run lr ((tb, vb) :: rest) m (r :: h) m'.

(** Every traversal of the loader yields well-formed batches. *)
Definition yields_batches (pixels classes : nat) (dl : Loader) : Prop :=
  forall rng,
    Forall (fun b => batch_ok pixels classes b = true) (fst (dl_iter dl rng)).

(** Every traversal of the loader yields at least one batch. *)
Definition never_empty (dl : Loader) : Prop :=
  forall rng, fst (dl_iter dl rng) <> [].

(** Every traversal yields the same batches, whatever the generator. *)
Definition deterministic (dl : Loader) : Prop :=
  forall r r', fst (dl_iter dl r) = fst (dl_iter dl r').

End Vocabulary.

(* ------------------------------------------------------------------ *)
(** ** Vocabulary of further statements *)

Definition device_eqb (a b : Device) : bool :=
  match a, b with
  | cpu, cpu | cuda, cuda => true
  | _, _ => false
  end.

(** Every tensor of the data is on the device. *)
Fixpoint all_on (device : Device) (d : Data) : bool :=
  match d with
  | FloatTensor dev _ | LongTensor dev _ => device_eqb dev device
  | PyList l | PyTuple l => forallb (all_on device) l
  end.

(** No tuple occurs in the data, at any depth. *)
Fixpoint tuple_free (d : Data) : bool :=
  match d with
  | FloatTensor _ _ | LongTensor _ _ => true
  | PyList l => forallb tuple_free l
  | PyTuple _ => false
  end.

(** The contents of the tensors of the data, left to right. *)
Fixpoint tensor_values (d : Data) : list (list Image + IntVector) :=
  match d with
  | FloatTensor _ x => [inl x]
  | LongTensor _ y => [inr y]
  | PyList l | PyTuple l => flat_map tensor_values l
  end.

(** Sample data: a loader whose second batch has one item only, a model
    with a first layer of three inputs, and a nested batch. *)
Definition demo_bad_loader : @Loader demo_lib :=
  mkLoader (fun r : @RNG demo_lib =>
              ([demo_batch; PyList [FloatTensor cpu demo_images]; demo_batch], r)) 3.

(** A loader whose first batch has a label that is no class index. *)
Definition demo_mislabelled_loader : @Loader demo_lib :=
  mkLoader (fun r : @RNG demo_lib =>
              ([PyTuple [FloatTensor cpu demo_images; LongTensor cpu [0; 5]%Z];
                demo_batch], r)) 2.

Definition demo_wide_model : CIFARModel :=
  mkModel (demo_layer [[1; 0; 0]; [0; 1; 0]] [0; 0])
          (linear2 demo_model) (linear3 demo_model).

Definition demo_nested : Data :=
  PyTuple [PyTuple [FloatTensor cpu demo_images; LongTensor cuda [0; 1]%Z];
           PyList [LongTensor cpu [2]%Z]].

(* ================================================================== *)
(** * Properties *)

Unset Implicit Arguments.

(** ** Arg-max and accuracy *)

Lemma Qltb_true (a b : Q) : Qltb a b = true -> a < b.
Proof.
  unfold Qltb. intros H. apply negb_true_iff in H.
  apply Qnot_le_lt. intros Hle. apply Qle_bool_iff in Hle. congruence.
Qed.

Lemma Qltb_false (a b : Q) : Qltb a b = false -> b <= a.
Proof.
  unfold Qltb. intros H. apply negb_false_iff in H.
  now apply Qle_bool_iff.
Qed.

(** The scan returns a position of the row that holds a greatest score,
    the first such position. *)
Lemma max_scan_spec (t pre : list Q) (best : Q) (bi : nat) :
  nth_error (pre ++ t) bi = Some best ->
  (bi < length pre)%nat ->
  (forall j w, (j < length pre)%nat -> nth_error (pre ++ t) j = Some w ->
               w <= best /\ ((j < bi)%nat -> w < best)) ->
  forall v k, max_scan best bi (length pre) t = (v, k) ->
    nth_error (pre ++ t) k = Some v /\
    forall j w, nth_error (pre ++ t) j = Some w ->
                w <= v /\ ((j < k)%nat -> w < v).
Proof.
  revert pre best bi.
  induction t as [|x t IH]; intros pre best bi Hbest Hbi Hinv v k Hscan.
  - simpl in Hscan. inversion Hscan; subst v k. split; [exact Hbest|].
    intros j w Hj. apply Hinv; [|exact Hj].
    apply nth_error_Some. rewrite app_nil_r in Hj. congruence.
  - simpl in Hscan.
    assert (Hx : nth_error (pre ++ x :: t) (length pre) = Some x).
    { rewrite nth_error_app2 by lia. now rewrite Nat.sub_diag. }
    assert (Hshift : pre ++ x :: t = (pre ++ [x]) ++ t)
      by now rewrite <- app_assoc.
    assert (Hlen : length (pre ++ [x]) = S (length pre))
      by (rewrite length_app; simpl; lia).
    destruct (Qltb best x) eqn:Hcmp.
    + apply Qltb_true in Hcmp.
      rewrite Hshift. rewrite <- Hlen in Hscan.
      apply (IH (pre ++ [x]) x (length pre)); try assumption.
      * now rewrite <- Hshift.
      * lia.
      * intros j w Hj Hw. rewrite <- Hshift in Hw.
        assert (Hcase : (j < length pre)%nat \/ j = length pre) by lia.
        destruct Hcase as [Hlt|Heq].
        -- destruct (Hinv j w Hlt Hw) as [Hle _].
           split; [apply Qlt_le_weak|intros _];
             now apply Qle_lt_trans with best.
        -- subst j. rewrite Hx in Hw. inversion Hw; subst w.
           split; [apply Qle_refl | lia].
    + apply Qltb_false in Hcmp.
      rewrite Hshift. rewrite <- Hlen in Hscan.
      apply (IH (pre ++ [x]) best bi); try assumption.
      * now rewrite <- Hshift.
      * lia.
      * intros j w Hj Hw. rewrite <- Hshift in Hw.
        assert (Hcase : (j < length pre)%nat \/ j = length pre) by lia.
        destruct Hcase as [Hlt|Heq].
        -- now apply Hinv.
        -- subst j. rewrite Hx in Hw. inversion Hw; subst w.
           split; [exact Hcmp | lia].
Qed.

Lemma torch_max_row_spec (row : list Q) (v : Q) (k : nat) :
  torch_max_row row = Ok (v, k) ->
  nth_error row k = Some v /\
  forall j w, nth_error row j = Some w -> w <= v /\ ((j < k)%nat -> w < v).
Proof.
  destruct row as [|x t]; simpl; [discriminate|].
  intros H. inversion H as [Hscan]. clear H.
  apply (max_scan_spec t [x] x 0); simpl; auto.
  intros j w Hj Hw. assert (j = 0%nat) by lia. subst j.
  simpl in Hw. inversion Hw; subst w. split; [apply Qle_refl | lia].
Qed.

(** The index found is the one and only label that [is_argmax] accepts. *)
Lemma torch_max_row_is_argmax (row : list Q) (v : Q) (k : nat) (l : Z) :
  torch_max_row row = Ok (v, k) ->
  (is_argmax row l <-> Z.of_nat k = l).
Proof.
  intros H. destruct (torch_max_row_spec _ _ _ H) as [Hk Hmax]. split.
  - intros [Hl [u [Hu Hspec]]].
    assert (Hcase : (Z.to_nat l < k)%nat \/ (k < Z.to_nat l)%nat \/ Z.to_nat l = k)
      by lia.
    destruct Hcase as [Hlt|[Hgt|Heq]].
    + exfalso. destruct (Hmax _ _ Hu) as [_ Hstrict].
      destruct (Hspec _ _ Hk) as [Hle _].
      apply (Qlt_irrefl u). apply Qlt_le_trans with v; auto.
    + exfalso. destruct (Hspec _ _ Hk) as [_ Hstrict].
      destruct (Hmax _ _ Hu) as [Hle _].
      apply (Qlt_irrefl v). apply Qlt_le_trans with u; auto.
    + lia.
  - intros <-. split; [lia|]. exists v. rewrite Nat2Z.id. auto.
Qed.

Lemma hits_functional (s : list (list Q * Z)) (k k' : nat) :
  hits s k -> hits s k' -> k = k'.
Proof.
  intros H. revert k'. induction H; intros k' H'; inversion H'; subst;
    auto; try contradiction.
Qed.

Lemma hits_bound (s : list (list Q * Z)) (k : nat) :
  hits s k -> (k <= length s)%nat.
Proof. induction 1; simpl; lia. Qed.

Lemma res_map_length {A B} (f : A -> res B) (l : list A) (r : list B) :
  res_map f l = Ok r -> length r = length l.
Proof.
  revert r. induction l as [|x t IH]; simpl; intros r H.
  - now inversion H.
  - destruct (f x); simpl in H; [|discriminate].
    destruct (res_map f t); simpl in H; [|discriminate].
    inversion H. simpl. f_equal. now apply IH.
Qed.

Lemma res_map_total {A B} (f : A -> res B) (l : list A) :
  Forall (fun x => exists y, f x = Ok y) l -> exists r, res_map f l = Ok r.
Proof.
  induction 1 as [|x t [y Hy] _ [r Hr]]; simpl.
  - now exists [].
  - rewrite Hy, Hr. simpl. now exists (y :: r).
Qed.

(** The mask computed from the predictions counts the arg-max-correct
    samples. *)
Lemma mask_counts_hits (outputs : Matrix) :
  forall (labels : IntVector) (vi : list (Q * nat)),
  res_map torch_max_row outputs = Ok vi ->
  hits (combine outputs labels)
       (length (filter (fun b : bool => b)
          (map (fun p => Z.eqb (fst p) (snd p))
               (combine (map (fun p => Z.of_nat (snd p)) vi) labels)))).
Proof.
  induction outputs as [|row t IH]; intros labels vi H; simpl in *.
  - inversion H. simpl. constructor.
  - destruct (torch_max_row row) as [[v k]|] eqn:Hrow; simpl in H; [|discriminate].
    destruct (res_map torch_max_row t) as [vi'|] eqn:Ht; simpl in H; [|discriminate].
    inversion H; subst vi. clear H.
    destruct labels as [|l ls]; simpl; [constructor|].
    pose proof (torch_max_row_is_argmax _ _ _ l Hrow) as Hiff.
    destruct (Z.eqb_spec (Z.of_nat k) l) as [Heq|Hne]; simpl.
    + apply hits_yes; [now apply Hiff | now apply IH].
    + apply hits_no; [intros Harg; apply Hne; now apply Hiff | now apply IH].
Qed.

Lemma fraction_bounds (k n : nat) :
  (k <= n)%nat -> (0 < n)%nat ->
  0 <= inject_Z (Z.of_nat k) / inject_Z (Z.of_nat n) /\
  inject_Z (Z.of_nat k) / inject_Z (Z.of_nat n) <= 1.
Proof.
  intros Hk Hn.
  assert (Hpos : 0 < inject_Z (Z.of_nat n)).
  { change 0 with (inject_Z 0). rewrite <- Zlt_Qlt. lia. }
  split.
  - apply Qle_shift_div_l; [exact Hpos|].
    rewrite Qmult_0_l. change 0 with (inject_Z 0). rewrite <- Zle_Qle. lia.
  - apply Qle_shift_div_r; [exact Hpos|].
    rewrite Qmult_1_l. rewrite <- Zle_Qle. lia.
Qed.

(** C1.  For a non-empty batch of score rows (each with at least one
    class) and as many labels, [accuracy] returns [k / n], where [n] is
    the number of samples and [k] the number of samples whose label is
    the arg-max of their row; the value lies between 0 and 1, and with
    [n = 4] and [k = 3] it is 0.75. *)
Theorem accuracy_is_argmax_fraction (outputs : Matrix) (labels : IntVector) :
  outputs <> [] ->
  length labels = length outputs ->
  Forall (fun row => row <> []) outputs ->
  exists (k : nat) (a : Q),
    hits (combine outputs labels) k /\
    accuracy outputs labels = Ok a /\
    a = inject_Z (Z.of_nat k) / inject_Z (Z.of_nat (length outputs)) /\
    0 <= a /\ a <= 1 /\
    (length outputs = 4%nat -> k = 3%nat -> a == 75 # 100).
Proof.
  intros Hne Hlen Hrows.
  destruct (res_map_total torch_max_row outputs) as [vi Hvi].
  { eapply Forall_impl; [|exact Hrows]. intros [|x t] Hrow; [congruence|].
    simpl. eauto. }
  pose proof (res_map_length _ _ _ Hvi) as Hvilen.
  pose proof (mask_counts_hits outputs labels vi Hvi) as Hhits.
  set (mask := map (fun p => Z.eqb (fst p) (snd p))
                 (combine (map (fun p => Z.of_nat (snd p)) vi) labels)) in *.
  set (k := length (filter (fun b : bool => b) mask)) in *.
  assert (Hn : (0 < length outputs)%nat)
    by (destruct outputs; [congruence | simpl; lia]).
  assert (Hk : (k <= length outputs)%nat).
  { apply hits_bound in Hhits. rewrite length_combine in Hhits. lia. }
  exists k, (inject_Z (Z.of_nat k) / inject_Z (Z.of_nat (length outputs))).
  destruct (fraction_bounds k (length outputs) Hk Hn) as [Hlo Hhi].
  repeat split; auto.
  - unfold accuracy, torch_max_dim1. rewrite Hvi. simpl.
    unfold tensor_eq. rewrite !length_map, Hvilen, Hlen, Nat.eqb_refl. simpl.
    unfold py_truediv, torch_sum_bool.
    destruct (Z.eqb_spec (Z.of_nat (length outputs)) 0) as [Hz|_]; [lia|].
    reflexivity.
  - intros H4 H3. rewrite H4, H3. reflexivity.
Qed.

(** The theorem at the four sample rows: three of them are correct. *)
Lemma accuracy_is_argmax_fraction_witness :
  exists (k : nat) (a : Q),
    hits (combine demo_scores demo_labels) k /\
    accuracy demo_scores demo_labels = Ok a /\
    a = inject_Z (Z.of_nat k) / inject_Z (Z.of_nat (length demo_scores)) /\
    0 <= a /\ a <= 1 /\
    (length demo_scores = 4%nat -> k = 3%nat -> a == 75 # 100).
Proof.
  apply (accuracy_is_argmax_fraction demo_scores demo_labels).
  - discriminate.
  - reflexivity.
  - repeat constructor; discriminate.
Defined.

Example accuracy_demo : accuracy demo_scores demo_labels = Ok (3 # 4).
Proof. reflexivity. Qed.

(** With one prediction against several labels the comparison broadcasts
    and the quotient leaves the unit interval: equal lengths matter. *)
Example accuracy_broadcast :
  accuracy [[0; 1]] [1; 1; 1]%Z = Ok (3 # 1).
Proof. reflexivity. Qed.

Example accuracy_empty_batch : accuracy [] [] = Err ZeroDivisionError.
Proof. reflexivity. Qed.

(* ------------------------------------------------------------------ *)
(** ** The forward pass *)

Lemma res_map_ext {A B} (f g : A -> res B) (l : list A) :
  (forall x, f x = g x) -> res_map f l = res_map g l.
Proof.
  intros H. induction l as [|x t IH]; simpl; [reflexivity|].
  now rewrite H, IH.
Qed.

Lemma res_map_Forall2 {A B} (f : A -> res B) (l : list A) (r : list B) :
  res_map f l = Ok r <-> Forall2 (fun x y => f x = Ok y) l r.
Proof.
  revert r. induction l as [|x t IH]; intros r; simpl.
  - split; intros H; inversion H; constructor.
  - split.
    + intros H. destruct (f x) as [y|] eqn:Hx; simpl in H; [|discriminate].
      destruct (res_map f t) as [ys|] eqn:Ht; simpl in H; [|discriminate].
      inversion H. constructor; [exact Hx | now apply IH].
    + intros H. inversion H as [|? y ? ys Hx Hys]; subst.
      apply IH in Hys. now rewrite Hx, Hys.
Qed.

(** The forward pass reads the parameter values and nothing else. *)
Lemma forward_ext (m m' : CIFARModel) (xb : list Image) :
  param_values m = param_values m' -> forward m xb = forward m' xb.
Proof.
  unfold param_values. intros H. injection H as H1 H2 H3 H4 H5 H6.
  unfold forward. destruct xb as [|img t]; [reflexivity|].
  apply res_map_ext. intros x. unfold forward_one, linear_apply.
  now rewrite H1, H2, H3, H4, H5, H6.
Qed.

Lemma length_row_lengths (w : Matrix) : length (row_lengths w) = length w.
Proof. apply length_map. Qed.

Lemma layer_ok_out_features (n : nat) (l : Linear) :
  layer_ok n l = true ->
  out_features l = length (data (weight l)) /\ (0 < out_features l)%nat.
Proof.
  unfold layer_ok, out_features. rewrite length_row_lengths. intros H.
  apply andb_true_iff in H. destruct H as [H Hb].
  apply andb_true_iff in H. destruct H as [Hne _].
  apply Nat.eqb_eq in Hb. apply negb_true_iff, Nat.eqb_neq in Hne.
  rewrite length_combine. lia.
Qed.

(** A layer that takes [n] entries accepts a sample of [n] entries and
    gives one score per row. *)
Lemma linear_apply_ok (n : nat) (l : Linear) (x : Vector) :
  layer_ok n l = true -> length x = n ->
  exists out, linear_apply l x = Ok out /\ length out = out_features l.
Proof.
  unfold layer_ok, linear_apply, out_features. rewrite length_row_lengths.
  intros H Hx.
  apply andb_true_iff in H. destruct H as [H Hb].
  apply andb_true_iff in H. destruct H as [_ Hrows].
  assert (Hall : forallb (fun row => Nat.eqb (length row) (length x))
                   (data (weight l)) = true).
  { rewrite forallb_forall in *. intros row Hin.
    specialize (Hrows (length row)). rewrite Hx.
    rewrite Nat.eqb_sym. apply Hrows. unfold row_lengths. now apply in_map. }
  rewrite Hall, Hb. simpl. eexists. split; [reflexivity|]. apply length_map.
Qed.

Lemma length_relu (v : Vector) : length (relu v) = length v.
Proof. apply length_map. Qed.

Lemma forward_one_ok (m : CIFARModel) (img : Image) :
  well_shaped m = true ->
  length (flatten img) = in_features (linear1 m) ->
  exists row, forward_one m img = Ok row /\
              length row = out_features (linear3 m).
Proof.
  unfold well_shaped. intros H Himg.
  apply andb_true_iff in H. destruct H as [H H3].
  apply andb_true_iff in H. destruct H as [H H2].
  apply andb_true_iff in H. destruct H as [Hpos H1].
  apply negb_true_iff in Hpos.
  unfold forward_one. rewrite Himg, Hpos.
  destruct (linear_apply_ok _ _ _ H1 Himg) as [o1 [E1 L1]]. rewrite E1. simpl.
  assert (L1' : length (relu o1) = out_features (linear1 m))
    by now rewrite length_relu.
  destruct (linear_apply_ok _ _ _ H2 L1') as [o2 [E2 L2]]. rewrite E2. simpl.
  assert (L2' : length (relu o2) = out_features (linear2 m))
    by now rewrite length_relu.
  destruct (linear_apply_ok _ _ _ H3 L2') as [o3 [E3 L3]]. rewrite E3.
  eauto.
Qed.

Lemma well_shaped_classes (m : CIFARModel) :
  well_shaped m = true -> (0 < out_features (linear3 m))%nat.
Proof.
  unfold well_shaped. intros H. apply andb_true_iff in H. destruct H as [_ H3].
  now apply layer_ok_out_features in H3.
Qed.

(** On a well-shaped model the forward pass accepts every non-empty
    batch of images of the right size, and gives one row of class scores
    per image. *)
Lemma forward_ok (m : CIFARModel) (xb : list Image) :
  well_shaped m = true ->
  xb <> [] ->
  forallb (fun img => Nat.eqb (length (flatten img)) (in_features (linear1 m))) xb
  = true ->
  exists out, forward m xb = Ok out /\
              length out = length xb /\
              Forall (fun row => length row = out_features (linear3 m)) out.
Proof.
  intros Hm Hne Himgs. unfold forward.
  destruct xb as [|img0 t0]; [congruence|]. clear Hne.
  generalize dependent (img0 :: t0). intros xb Himgs.
  induction xb as [|img t IH]; simpl in *.
  - exists []. repeat split. constructor.
  - apply andb_true_iff in Himgs. destruct Himgs as [Himg Ht].
    apply Nat.eqb_eq in Himg.
    destruct (forward_one_ok m img Hm Himg) as [row [Er Lr]].
    destruct (IH Ht) as [out [Eo [Lo Fo]]].
    rewrite Er, Eo. simpl. exists (row :: out). repeat split.
    + simpl. now rewrite Lo.
    + now constructor.
Qed.

(* ------------------------------------------------------------------ *)
(** ** Evaluation *)

Lemma accuracy_total (outputs : Matrix) (labels : IntVector) :
  outputs <> [] ->
  length labels = length outputs ->
  Forall (fun row => row <> []) outputs ->
  exists a, accuracy outputs labels = Ok a.
Proof.
  intros Hne Hlen Hrows.
  destruct (res_map_total torch_max_row outputs) as [vi Hvi].
  { eapply Forall_impl; [|exact Hrows]. intros [|x t] Hrow; [congruence|].
    simpl. eauto. }
  pose proof (res_map_length _ _ _ Hvi) as Hvilen.
  unfold accuracy, torch_max_dim1. rewrite Hvi. simpl.
  unfold tensor_eq. rewrite !length_map, Hvilen, Hlen, Nat.eqb_refl. simpl.
  unfold py_truediv.
  destruct (Z.eqb_spec (Z.of_nat (length outputs)) 0) as [Hz|_]; [|eauto].
  destruct outputs; [congruence | simpl in Hz; lia].
Qed.

(** What a well-formed batch is made of. *)
Lemma batch_ok_inv (pixels classes : nat) (b : Data) :
  batch_ok pixels classes b = true ->
  exists d1 d2 x y,
    unpack_batch b = Ok (Whole (FloatTensor d1 x), Whole (LongTensor d2 y)) /\
    batch_tensors b = Some (x, y) /\
    x <> [] /\
    forallb (fun img => Nat.eqb (length (flatten img)) pixels) x = true /\
    length y = length x /\
    forallb (fun l => (0 <=? l)%Z && (l <? Z.of_nat classes)%Z) y = true.
Proof.
  unfold batch_ok.
  destruct (batch_tensors b) as [[x y]|] eqn:Hb; [|discriminate].
  intros H.
  apply andb_true_iff in H. destruct H as [H Hy].
  apply andb_true_iff in H. destruct H as [H Hlen].
  apply andb_true_iff in H. destruct H as [Hne Hx].
  apply Nat.eqb_eq in Hlen. apply negb_true_iff, Nat.eqb_neq in Hne.
  assert (Hx0 : x <> []) by (intros ->; apply Hne; reflexivity).
  destruct b as [dev x0|dev y0|l|l]; simpl in Hb; try discriminate;
    destruct l as [|[d1 x1|d1 y1|l1|l1] [|[d2 x2|d2 y2|l2|l2] [|c l']]];
    simpl in Hb; try discriminate; inversion Hb; subst;
    exists d1, d2, x, y; repeat split; auto.
Qed.

Lemma label_range_ok (classes : nat) (y : IntVector) :
  forallb (fun l => (0 <=? l)%Z && (l <? Z.of_nat classes)%Z) y = true ->
  forallb (label_ok classes) y = true.
Proof.
  rewrite !forallb_forall. intros H l Hl. unfold label_ok.
  now rewrite (H l Hl).
Qed.

Section EvaluateProperties.

Context {L : TorchLib}.

Lemma logged_nil (st : State) : logged [] st = st.
Proof. destruct st. unfold logged. simpl. now rewrite app_nil_r. Qed.

Lemma logged_logged (a b : list Event) (st : State) :
  logged b (logged a st) = logged (a ++ b) st.
Proof. unfold logged. simpl. now rewrite app_assoc. Qed.

(** On a well-shaped model every step on a well-formed batch goes
    through: the forward pass gives one row of class scores per image,
    cross-entropy accepts the labels. *)
Lemma batch_ok_scores (m : CIFARModel) (b : Data) :
  well_shaped m = true ->
  batch_ok (in_features (linear1 m)) (out_features (linear3 m)) b = true ->
  exists d1 d2 x y out,
    unpack_batch b = Ok (Whole (FloatTensor d1 x), Whole (LongTensor d2 y)) /\
    batch_tensors b = Some (x, y) /\
    forward m x = Ok out /\
    F_cross_entropy out (Whole (LongTensor d2 y)) = Ok (cross_entropy_value out y) /\
    exists a, accuracy out y = Ok a.
Proof.
  intros Hm Hok.
  destruct (batch_ok_inv _ _ _ Hok)
    as [d1 [d2 [x [y [Hun [Hbt [Hne [Hx [Hlen Hy]]]]]]]]].
  destruct (forward_ok m x Hm Hne Hx) as [out [Hout [Hlo Hrows]]].
  pose proof (well_shaped_classes m Hm) as Hcls.
  assert (Hone : out <> [])
    by (intros ->; destruct x; [congruence | simpl in Hlo; lia]).
  assert (Hclasses : classes_of out = out_features (linear3 m)).
  { destruct out as [|row t]; [congruence|]. simpl. now inversion Hrows. }
  exists d1, d2, x, y, out. repeat split; auto.
  - unfold F_cross_entropy. rewrite Hlen, Hlo, Nat.eqb_refl. simpl.
    rewrite Hclasses. now rewrite (label_range_ok _ _ Hy).
  - apply accuracy_total; [exact Hone | lia |].
    eapply Forall_impl; [|exact Hrows]. intros row Hr ->. simpl in Hr. lia.
Qed.

Lemma validation_value_ok (m : CIFARModel) (b : Data) :
  well_shaped m = true ->
  batch_ok (in_features (linear1 m)) (out_features (linear3 m)) b = true ->
  exists r, step_result m b r /\ validation_value m b = Ok r.
Proof.
  intros Hm Hok.
  destruct (batch_ok_scores m b Hm Hok)
    as [d1 [d2 [x [y [out [Hun [Hbt [Hout [Hce [a Ha]]]]]]]]]].
  exists (mkMetrics (cross_entropy_value out y) a). split.
  - exists x, y, out. simpl. auto.
  - unfold validation_value. rewrite Hun. cbn [res_bind call_model].
    rewrite Hout. cbn [res_bind]. rewrite Hce. cbn [res_bind accuracy_of].
    rewrite Ha. reflexivity.
Qed.

(** The value of a validation step is [validation_value] of the model. *)
Lemma validation_step_value (b : Data) (st : State) :
  value_of (validation_step b st) = validation_value (st_model st) b.
Proof.
  unfold validation_step, validation_value, bind, lift, get_model, emit, ret.
  destruct (unpack_batch b) as [[images labels]|e]; simpl; [|reflexivity].
  destruct (call_model (st_model st) images) as [out|e]; simpl; [|reflexivity].
  destruct (F_cross_entropy out labels) as [loss|e]; simpl; [|reflexivity].
  destruct (accuracy_of out labels); reflexivity.
Qed.

(** Whatever the batch, a validation step touches nothing but the trace,
    to which it adds at most its one cross-entropy call. *)
Lemma validation_step_cases (b : Data) (st : State) :
  (exists r, validation_step b st = Returned r (logged [Ev_cross_entropy b] st))
  \/ (exists e, validation_step b st = Raised e st)
  \/ (exists e, validation_step b st = Raised e (logged [Ev_cross_entropy b] st)).
Proof.
  unfold validation_step, bind, lift, get_model, emit, ret.
  destruct (unpack_batch b) as [[images labels]|e]; simpl;
    [|right; left; eexists; reflexivity].
  destruct (call_model (st_model st) images) as [out|e]; simpl;
    [|right; left; eexists; reflexivity].
  destruct (F_cross_entropy out labels) as [loss|e]; simpl;
    [|right; right; eexists; reflexivity].
  destruct (accuracy_of out labels) as [a|e].
  - left. eexists. reflexivity.
  - right. right. eexists. reflexivity.
Qed.

Lemma validation_step_returned (b : Data) (st : State) (r : Metrics) :
  value_of (validation_step b st) = Ok r ->
  validation_step b st = Returned r (logged [Ev_cross_entropy b] st).
Proof.
  intros H.
  destruct (validation_step_cases b st) as [[r' E]|[[e E]|[e E]]];
    rewrite E in *; simpl in H; try discriminate.
  now inversion H.
Qed.

Lemma map_validation_returned (bs : list Data) :
  forall st rs,
  Forall2 (fun b r => value_of (validation_step b st) = Ok r) bs rs ->
  map_M validation_step bs st
  = Returned rs (logged (map Ev_cross_entropy bs) st).
Proof.
  induction bs as [|b t IH]; intros st rs H; inversion H as [|? r ? rs' Hb Ht];
    subst.
  - simpl. unfold ret. now rewrite logged_nil.
  - simpl. unfold bind at 1. rewrite (validation_step_returned b st r Hb).
    unfold bind at 1. rewrite (IH (logged [Ev_cross_entropy b] st) rs').
    + unfold ret. now rewrite logged_logged.
    + eapply Forall2_impl; [|exact Ht]. intros b' r' Hv. cbv beta in Hv.
      rewrite validation_step_value in Hv |- *. exact Hv.
Qed.

Lemma validation_epoch_end_mean (rs : list Metrics) :
  rs <> [] ->
  validation_epoch_end rs
  = Ok (mkMetrics (arithmetic_mean (map val_loss rs))
                  (arithmetic_mean (map val_acc rs))).
Proof.
  destruct rs as [|r t]; [congruence|]. intros _. reflexivity.
Qed.

(** When every validation step returns, [evaluate] returns or raises as
    the reduction of the step results does, and leaves everything but the
    generator and the call trace as it was. *)
Lemma evaluate_reduces (val_loader : Loader) (st : State) (rs : list Metrics) :
  Forall2 (fun b r => value_of (validation_step b st) = Ok r)
          (fst (dl_iter val_loader (st_rng st))) rs ->
  evaluate val_loader st
  = lift (validation_epoch_end rs)
      (mkState (st_model st) (snd (dl_iter val_loader (st_rng st)))
               (st_trace st
                ++ map Ev_cross_entropy (fst (dl_iter val_loader (st_rng st))))
               (st_files st)).
Proof.
  intros H. unfold evaluate, bind at 1, batches_of.
  destruct (dl_iter val_loader (st_rng st)) as [bs rng']. simpl in *.
  set (st1 := mkState (st_model st) rng' (st_trace st) (st_files st)).
  unfold bind. rewrite (map_validation_returned bs st1 rs); [reflexivity|].
  eapply Forall2_impl; [|exact H]. intros b r Hv. cbv beta in Hv.
  rewrite validation_step_value in Hv |- *. exact Hv.
Qed.

Lemma steps_return (bs : list Data) (st : State) :
  well_shaped (st_model st) = true ->
  Forall (fun b => batch_ok (in_features (linear1 (st_model st)))
                            (out_features (linear3 (st_model st))) b = true) bs ->
  exists rs,
    Forall2 (step_result (st_model st)) bs rs /\
    Forall2 (fun b r => value_of (validation_step b st) = Ok r) bs rs.
Proof.
  intros Hm Hok. induction Hok as [|b t Hb _ IH].
  - exists []. split; constructor.
  - destruct (validation_value_ok _ b Hm Hb) as [r [Hr Hv]].
    destruct IH as [rs [H1 H2]].
    exists (r :: rs). split; constructor; auto.
    now rewrite validation_step_value.
Qed.

(** On a well-shaped model and a loader that yields at least one batch,
    all well-formed, [evaluate] returns the two means. *)
Lemma evaluate_returns (val_loader : Loader) (st : State) :
  well_shaped (st_model st) = true ->
  fst (dl_iter val_loader (st_rng st)) <> [] ->
  Forall (fun b => batch_ok (in_features (linear1 (st_model st)))
                            (out_features (linear3 (st_model st))) b = true)
         (fst (dl_iter val_loader (st_rng st))) ->
  exists rs,
    Forall2 (step_result (st_model st)) (fst (dl_iter val_loader (st_rng st))) rs /\
    validation_epoch_end rs
    = Ok (mkMetrics (arithmetic_mean (map val_loss rs))
                    (arithmetic_mean (map val_acc rs))) /\
    evaluate val_loader st
    = Returned (mkMetrics (arithmetic_mean (map val_loss rs))
                          (arithmetic_mean (map val_acc rs)))
               (mkState (st_model st) (snd (dl_iter val_loader (st_rng st)))
                        (st_trace st
                         ++ map Ev_cross_entropy (fst (dl_iter val_loader (st_rng st))))
                        (st_files st)).
Proof.
  intros Hm Hne Hok.
  destruct (steps_return _ st Hm Hok) as [rs [H1 H2]].
  assert (Hrne : rs <> []) by (intros ->; inversion H1; congruence).
  exists rs. split; [exact H1|].
  split; [now apply validation_epoch_end_mean|].
  rewrite (evaluate_reduces val_loader st rs H2).
  now rewrite (validation_epoch_end_mean rs Hrne).
Qed.

Lemma map_validation_frame (bs : list Data) :
  forall st, exists n,
    final_state (map_M validation_step bs st)
    = logged (map Ev_cross_entropy (firstn n bs)) st.
Proof.
  induction bs as [|b t IH]; intros st.
  - exists 0%nat. simpl. now rewrite logged_nil.
  - simpl. unfold bind at 1.
    destruct (validation_step_cases b st) as [[r H]|[[e H]|[e H]]]; rewrite H.
    + destruct (IH (logged [Ev_cross_entropy b] st)) as [n Hn].
      exists (S n). unfold bind.
      destruct (map_M validation_step t (logged [Ev_cross_entropy b] st))
        as [rs st'|e st']; simpl in *; subst st'; apply logged_logged.
    + exists 0%nat. simpl. now rewrite logged_nil.
    + exists 1%nat. reflexivity.
Qed.

Lemma evaluate_frame (val_loader : Loader) (st : State) :
  exists n,
    final_state (evaluate val_loader st)
    = mkState (st_model st) (snd (dl_iter val_loader (st_rng st)))
        (st_trace st
         ++ map Ev_cross_entropy (firstn n (fst (dl_iter val_loader (st_rng st)))))
        (st_files st).
Proof.
  unfold evaluate, bind at 1, batches_of.
  destruct (dl_iter val_loader (st_rng st)) as [bs rng']. simpl.
  set (st1 := mkState (st_model st) rng' (st_trace st) (st_files st)).
  destruct (map_validation_frame bs st1) as [n Hn]. exists n.
  unfold bind.
  destruct (map_M validation_step bs st1) as [rs st'|e st']; simpl in *.
  - subst st'. unfold lift.
    destruct (validation_epoch_end rs); reflexivity.
  - subst st'. reflexivity.
Qed.

Lemma call_model_ext (m m' : CIFARModel) (images : Item) :
  param_values m = param_values m' -> call_model m images = call_model m' images.
Proof.
  intros H. destruct images as [[dev x|dev y|l|l]|dev x|dev y]; simpl;
    auto using forward_ext.
Qed.

Lemma validation_value_ext (m m' : CIFARModel) (b : Data) :
  param_values m = param_values m' ->
  validation_value m b = validation_value m' b.
Proof.
  intros H. unfold validation_value.
  destruct (unpack_batch b) as [[images labels]|]; simpl; [|reflexivity].
  now rewrite (call_model_ext m m' images H).
Qed.

Lemma map_validation_value (bs : list Data) :
  forall st, value_of (map_M validation_step bs st)
             = res_map (validation_value (st_model st)) bs.
Proof.
  induction bs as [|b t IH]; intros st; [reflexivity|].
  simpl. unfold bind at 1.
  pose proof (validation_step_value b st) as Hv.
  destruct (validation_step_cases b st) as [[r H]|[[e H]|[e H]]];
    rewrite H in *; simpl in Hv; rewrite <- Hv; simpl; try reflexivity.
  unfold bind.
  pose proof (IH (logged [Ev_cross_entropy b] st)) as IHt. simpl in IHt.
  destruct (map_M validation_step t (logged [Ev_cross_entropy b] st));
    simpl in *; rewrite <- IHt; reflexivity.
Qed.

(** What [evaluate] returns is a function of the parameter values and of
    the batches the loader yields. *)
Lemma evaluate_value (val_loader : Loader) (st : State) :
  value_of (evaluate val_loader st)
  = res_bind (res_map (validation_value (st_model st))
                      (fst (dl_iter val_loader (st_rng st))))
             validation_epoch_end.
Proof.
  unfold evaluate, bind at 1, batches_of.
  destruct (dl_iter val_loader (st_rng st)) as [bs rng']. simpl.
  set (st1 := mkState (st_model st) rng' (st_trace st) (st_files st)).
  pose proof (map_validation_value bs st1) as Hm. simpl in Hm.
  unfold bind.
  destruct (map_M validation_step bs st1) as [rs st'|e st'];
    simpl in *; rewrite <- Hm; simpl; [|reflexivity].
  unfold lift. destruct (validation_epoch_end rs); reflexivity.
Qed.

Lemma evaluate_value_ext (val_loader : Loader) (st st' : State) :
  param_values (st_model st) = param_values (st_model st') ->
  fst (dl_iter val_loader (st_rng st)) = fst (dl_iter val_loader (st_rng st')) ->
  value_of (evaluate val_loader st) = value_of (evaluate val_loader st').
Proof.
  intros Hp Hb. rewrite !evaluate_value, Hb.
  f_equal. apply res_map_ext. intros b. now apply validation_value_ext.
Qed.

(** C3.  When the validation loader yields at least one batch and the
    validation step of each batch returns its loss and accuracy,
    [evaluate] returns a result whose loss is the arithmetic mean of the
    per-batch losses and whose accuracy is the arithmetic mean of the
    per-batch accuracies, one term per batch whatever its size. *)
Theorem evaluate_is_mean_of_batch_means (val_loader : Loader) (st : State)
  (rs : list Metrics) :
  fst (dl_iter val_loader (st_rng st)) <> [] ->
  Forall2 (fun b r => value_of (validation_step b st) = Ok r)
          (fst (dl_iter val_loader (st_rng st))) rs ->
  exists (result : Metrics) (st' : State),
    evaluate val_loader st = Returned result st' /\
    val_loss result = arithmetic_mean (map val_loss rs) /\
    val_acc result = arithmetic_mean (map val_acc rs).
Proof.
  intros Hne Hrs.
  rewrite (evaluate_reduces val_loader st rs Hrs).
  rewrite validation_epoch_end_mean.
  - eexists _, _. split; [reflexivity|]. split; reflexivity.
  - intros ->. inversion Hrs as [Hnil|]. congruence.
Qed.

(** C4, as the code has it.  [evaluate] leaves the model object (every
    weight, bias and accumulated gradient) and the files as they were,
    whether it returns or raises, and its only library calls are
    cross-entropy computations on a prefix of the batches.  It returns
    exactly when the loader yields at least one batch and the validation
    step of every batch returns, and what it returns is then the single
    reduced result of the step results; on a loader that yields no batch
    it raises [RuntimeError]. *)
Theorem evaluate_changes_no_parameter (val_loader : Loader) (st : State) :
  st_model (final_state (evaluate val_loader st)) = st_model st /\
  st_files (final_state (evaluate val_loader st)) = st_files st /\
  (exists n,
     st_trace (final_state (evaluate val_loader st))
     = st_trace st
       ++ map Ev_cross_entropy (firstn n (fst (dl_iter val_loader (st_rng st))))) /\
  (forall result,
     value_of (evaluate val_loader st) = Ok result <->
     exists rs,
       rs <> [] /\
       Forall2 (fun b r => value_of (validation_step b st) = Ok r)
               (fst (dl_iter val_loader (st_rng st))) rs /\
       validation_epoch_end rs = Ok result) /\
  (fst (dl_iter val_loader (st_rng st)) = [] ->
   value_of (evaluate val_loader st) = Err RuntimeError).
Proof.
  destruct (evaluate_frame val_loader st) as [n Hn].
  rewrite Hn. simpl. split; [reflexivity|]. split; [reflexivity|].
  split; [exists n; reflexivity|]. split.
  - intros result. rewrite evaluate_value. split.
    + intros H.
      destruct (res_map (validation_value (st_model st))
                        (fst (dl_iter val_loader (st_rng st))))
        as [rs|] eqn:Hrs; simpl in H; [|discriminate].
      exists rs. split; [intros ->; discriminate|]. split; [|exact H].
      apply res_map_Forall2 in Hrs.
      eapply Forall2_impl; [|exact Hrs].
      intros b r Hb. now rewrite validation_step_value.
    + intros [rs [_ [Hrs Hend]]].
      assert (Hmap : res_map (validation_value (st_model st))
                             (fst (dl_iter val_loader (st_rng st))) = Ok rs).
      { apply res_map_Forall2. eapply Forall2_impl; [|exact Hrs].
        intros b r Hb. cbv beta in Hb.
        now rewrite validation_step_value in Hb. }
      rewrite Hmap. exact Hend.
  - intros Hnil. rewrite evaluate_value, Hnil. reflexivity.
Qed.

End EvaluateProperties.

Lemma evaluate_is_mean_of_batch_means_witness :
  exists (rs : list Metrics) (result : Metrics) (st' : @State demo_lib),
    Forall2 (fun b r => value_of (validation_step b demo_state) = Ok r)
            (fst (dl_iter demo_uneven_loader (st_rng demo_state))) rs /\
    evaluate demo_uneven_loader demo_state = Returned result st' /\
    val_loss result = arithmetic_mean (map val_loss rs) /\
    val_acc result = arithmetic_mean (map val_acc rs).
Proof.
  assert (Hrs : exists rs,
             Forall2 (fun b r => value_of (validation_step b demo_state) = Ok r)
                     (fst (dl_iter demo_uneven_loader (st_rng demo_state))) rs).
  { eexists. simpl. constructor; [reflexivity|].
    constructor; [reflexivity|]. constructor. }
  destruct Hrs as [rs Hrs]. exists rs.
  destruct (evaluate_is_mean_of_batch_means demo_uneven_loader demo_state rs)
    as [result [st' H]].
  - simpl. discriminate.
  - exact Hrs.
  - exists result, st'. split; [exact Hrs | exact H].
Defined.

(** One correct sample in a batch of one and none in a batch of three:
    the epoch accuracy is 1/2, not the pooled 1/4. *)
Example evaluate_weights_batches_equally :
  exists r, value_of (evaluate demo_uneven_loader demo_state) = Ok r /\
            val_acc r == 1 # 2 /\ ~ val_acc r == 1 # 4.
Proof.
  eexists. split; [vm_compute; reflexivity|]. split; [reflexivity|discriminate].
Qed.

Lemma evaluate_changes_no_parameter_witness :
  st_model (final_state (evaluate demo_loader demo_state)) = st_model demo_state /\
  exists result, value_of (evaluate demo_loader demo_state) = Ok result.
Proof.
  destruct (evaluate_changes_no_parameter demo_loader demo_state)
    as [Hm [_ [_ [Hret _]]]].
  split; [exact Hm|].
  eexists. apply Hret. eexists. split; [|split].
  2: { simpl. constructor; [reflexivity|].
       constructor; [reflexivity|]. constructor. }
  - discriminate.
  - reflexivity.
Defined.

(** C4 as stated fails on a loader that yields no batch: stacking the
    empty list of losses raises, so no result is returned. *)
Lemma evaluate_empty_loader_raises :
  value_of (evaluate demo_empty_loader demo_state) = Err RuntimeError /\
  ~ exists r (st' : @State demo_lib), evaluate demo_empty_loader demo_state = Returned r st'.
Proof.
  split; [reflexivity|]. intros [r [st' H]]. vm_compute in H. discriminate.
Qed.

(** A validation step raises where the library raises: on a label that
    is no class index, on labels that are not one per image, on an image
    of the wrong size and on a batch without images.  A bare tensor of
    two samples unpacks, and the step raises at the cross-entropy call. *)
Example validation_step_raises :
  value_of (validation_step
              (PyTuple [FloatTensor cpu demo_images; LongTensor cpu [0; 5]%Z])
              demo_state) = Err IndexError /\
  value_of (validation_step
              (PyTuple [FloatTensor cpu demo_images; LongTensor cpu [0]%Z])
              demo_state) = Err ValueError /\
  value_of (validation_step
              (PyTuple [FloatTensor cpu [ [[[1; 2; 3]]] ]; LongTensor cpu [0]%Z])
              demo_state) = Err RuntimeError /\
  value_of (validation_step
              (PyTuple [FloatTensor cpu []; LongTensor cpu []])
              demo_state) = Err RuntimeError /\
  validation_step (FloatTensor cpu demo_images) demo_state
  = Raised RuntimeError
      (logged [Ev_cross_entropy (FloatTensor cpu demo_images)] demo_state).
Proof. repeat split. Qed.

(* ------------------------------------------------------------------ *)
(** ** Training *)

Lemma length_vec_zip (f : Q -> Q -> Q) (p g : Vector) :
  length (vec_zip f p g) = length p.
Proof.
  revert g. induction p as [|x p IH]; intros [|y g]; simpl; auto.
Qed.

Lemma length_mat_zip (f : Q -> Q -> Q) (p g : Matrix) :
  length (mat_zip f p g) = length p.
Proof.
  revert g. induction p as [|x p IH]; intros [|y g]; simpl; auto.
Qed.

Lemma row_lengths_mat_zip (f : Q -> Q -> Q) (p g : Matrix) :
  row_lengths (mat_zip f p g) = row_lengths p.
Proof.
  unfold row_lengths. revert g.
  induction p as [|r p IH]; intros [|s g]; simpl; auto.
  now rewrite length_vec_zip, IH.
Qed.

Lemma nth_error_vec_zip (f : Q -> Q -> Q) (p g : Vector) :
  forall i x y, nth_error p i = Some x -> nth_error g i = Some y ->
                nth_error (vec_zip f p g) i = Some (f x y).
Proof.
  revert g. induction p as [|a p IH]; intros [|b g] [|i] x y Hp Hg;
    simpl in *; try discriminate.
  - now inversion Hp; inversion Hg.
  - now apply IH.
Qed.

Lemma nth_error_mat_zip (f : Q -> Q -> Q) (p g : Matrix) :
  forall i r s, nth_error p i = Some r -> nth_error g i = Some s ->
                nth_error (mat_zip f p g) i = Some (vec_zip f r s).
Proof.
  revert g. induction p as [|a p IH]; intros [|b g] [|i] r s Hp Hg;
    simpl in *; try discriminate.
  - now inversion Hp; inversion Hg.
  - now apply IH.
Qed.

Lemma stepped_vec_zip (lr : Q) (p g : Vector) :
  stepped_vec lr p g (vec_zip (fun x y => x - lr * y) p g).
Proof.
  split; [apply length_vec_zip|]. intros i x y Hp Hg.
  now apply (nth_error_vec_zip (fun x y => x - lr * y)).
Qed.

Lemma stepped_mat_zip (lr : Q) (p g : Matrix) :
  stepped_mat lr p g (mat_zip (fun x y => x - lr * y) p g).
Proof.
  split; [apply length_mat_zip|]. intros i r s Hp Hg.
  exists (vec_zip (fun x y => x - lr * y) r s). split.
  - now apply nth_error_mat_zip.
  - apply stepped_vec_zip.
Qed.

(** Accumulating a gradient on a model without gradients, one optimizer
    step and the clearing make one descent step. *)
Lemma one_step_sgd (lr : Q) (g : Grads) (m : CIFARModel) :
  grads_clear m ->
  one_step lr g m (zero_grad (sgd_step lr (accumulate_grads g m))).
Proof.
  destruct m as [[[w1 gw1] [b1 gb1]] [[w2 gw2] [b2 gb2]] [[w3 gw3] [b3 gb3]]].
  unfold grads_clear. simpl. intros [? [? [? [? [? ?]]]]]. subst.
  unfold one_step, grads_clear. simpl.
  repeat split; auto using stepped_vec_zip, stepped_mat_zip;
    try apply length_vec_zip; try apply length_mat_zip;
    try apply stepped_vec_zip; try apply stepped_mat_zip.
Qed.

(** A descent step keeps the shape of every parameter. *)
Lemma step_dims (lr : Q) (g : Grads) (m : CIFARModel) :
  well_shaped (zero_grad (sgd_step lr (accumulate_grads g m))) = well_shaped m /\
  in_features (linear1 (zero_grad (sgd_step lr (accumulate_grads g m))))
  = in_features (linear1 m) /\
  out_features (linear3 (zero_grad (sgd_step lr (accumulate_grads g m))))
  = out_features (linear3 m).
Proof.
  destruct m as [[[w1 gw1] [b1 gb1]] [[w2 gw2] [b2 gb2]] [[w3 gw3] [b3 gb3]]].
  unfold well_shaped, layer_ok, in_features, out_features, zero_grad, sgd_step,
    accumulate_grads, map_params, sgd_update, clear_grad, accumulate.
  simpl.
  destruct gw1, gb1, gw2, gb2, gw3, gb3; simpl;
    rewrite ?length_combine, ?row_lengths_mat_zip, ?length_vec_zip,
      ?length_mat_zip; auto.
Qed.

Section FitProperties.

Context {L : TorchLib}.

Lemma trained_on_dims (lr : Q) (m : CIFARModel) (b : Data) :
  well_shaped (trained_on lr m b) = well_shaped m /\
  in_features (linear1 (trained_on lr m b)) = in_features (linear1 m) /\
  out_features (linear3 (trained_on lr m b)) = out_features (linear3 m).
Proof.
  unfold trained_on. destruct (training_value m b); [apply step_dims|auto].
Qed.

Lemma fits_trained_on (pixels classes : nat) (lr : Q) (m : CIFARModel) (b : Data) :
  fits pixels classes m -> fits pixels classes (trained_on lr m b).
Proof.
  unfold fits. destruct (trained_on_dims lr m b) as [H1 [H2 H3]].
  rewrite H1, H2, H3. auto.
Qed.

Lemma fits_epoch (pixels classes : nat) (lr : Q) (bs : list Data) :
  forall m, fits pixels classes m ->
            fits pixels classes (fold_left (trained_on lr) bs m).
Proof.
  induction bs as [|b t IH]; intros m H; simpl; auto.
  apply IH. now apply fits_trained_on.
Qed.

Lemma fits_trained (pixels classes : nat) (lr : Q)
  (bss : list (list Data * list Data)) :
  forall m, fits pixels classes m -> fits pixels classes (trained lr bss m).
Proof.
  unfold trained. induction bss as [|[tb vb] t IH]; intros m H; simpl; auto.
  apply IH. now apply fits_epoch.
Qed.

Lemma grads_clear_trained_on (lr : Q) (m : CIFARModel) (b : Data) :
  grads_clear m -> grads_clear (trained_on lr m b).
Proof.
  unfold trained_on. intros H.
  destruct (training_value m b); [|exact H].
  unfold grads_clear. simpl. repeat split.
Qed.

Lemma grads_clear_epoch (lr : Q) (bs : list Data) :
  forall m, grads_clear m -> grads_clear (fold_left (trained_on lr) bs m).
Proof.
  induction bs as [|b t IH]; intros m H; simpl; auto.
  apply IH. now apply grads_clear_trained_on.
Qed.

Lemma grads_clear_trained (lr : Q) (bss : list (list Data * list Data)) :
  forall m, grads_clear m -> grads_clear (trained lr bss m).
Proof.
  unfold trained. induction bss as [|[tb vb] t IH]; intros m H; simpl; auto.
  apply IH. now apply grads_clear_epoch.
Qed.

(** On a well-formed batch the training step returns the loss of the
    batch's own tensors. *)
Lemma training_value_ok (pixels classes : nat) (m : CIFARModel) (b : Data) :
  fits pixels classes m ->
  batch_ok pixels classes b = true ->
  exists x y out,
    batch_tensors b = Some (x, y) /\
    training_value m b = Ok (mkLoss (cross_entropy_value out y) x y).
Proof.
  intros [Hm [Hp Hc]] Hok. subst pixels classes.
  destruct (batch_ok_scores m b Hm Hok)
    as [d1 [d2 [x [y [out [Hun [Hbt [Hout [Hce _]]]]]]]]].
  exists x, y, out. split; [exact Hbt|].
  unfold training_value. rewrite Hun. cbn [res_bind call_model].
  rewrite Hout. cbn [res_bind]. rewrite Hce. reflexivity.
Qed.

(** The state a pass of the loop body leaves, given what the training
    step is worth: one descent step and four calls when it returns. *)
Lemma train_on_batch_returns (lr : Q) (b : Data) (st : State) (loss : LossTensor) :
  training_value (st_model st) b = Ok loss ->
  train_on_batch (SGD lr) b st
  = Returned tt (mkState (trained_on lr (st_model st) b) (st_rng st)
                         (st_trace st ++ batch_calls lr b) (st_files st)).
Proof.
  intros Hv.
  unfold train_on_batch, training_step, backward, optimizer_step,
    optimizer_zero_grad, bind, lift, get_model, emit, update_model, ret,
    trained_on, batch_calls.
  rewrite Hv. unfold training_value in Hv.
  destruct (unpack_batch b) as [[images labels]|]; simpl in *; [|discriminate].
  destruct (call_model (st_model st) images) as [out|]; simpl in *;
    [|discriminate].
  destruct (F_cross_entropy out labels) as [l|]; simpl in *; [|discriminate].
  rewrite Hv. simpl. rewrite <- !app_assoc. reflexivity.
Qed.

Lemma for_each_train_returns (pixels classes : nat) (lr : Q) (bs : list Data) :
  forall st, fits pixels classes (st_model st) ->
  Forall (fun b => batch_ok pixels classes b = true) bs ->
  for_each (train_on_batch (SGD lr)) bs st
  = Returned tt (mkState (fold_left (trained_on lr) bs (st_model st)) (st_rng st)
                         (st_trace st ++ flat_map (batch_calls lr) bs) (st_files st)).
Proof.
  induction bs as [|b t IH]; intros st Hfit Hok.
  - simpl. unfold ret. destruct st. simpl. now rewrite app_nil_r.
  - inversion Hok as [|? ? Hb Ht]; subst.
    destruct (training_value_ok _ _ _ b Hfit Hb) as [x [y [out [_ Hv]]]].
    simpl for_each. unfold bind. rewrite (train_on_batch_returns lr b st _ Hv).
    rewrite IH; [|now apply fits_trained_on | exact Ht].
    simpl. now rewrite <- app_assoc.
Qed.

(** The training phase as a chain of descent steps. *)
Lemma trained_by_epoch (pixels classes : nat) (lr : Q) (bs : list Data) :
  forall m, fits pixels classes m -> grads_clear m ->
  Forall (fun b => batch_ok pixels classes b = true) bs ->
  trained_by lr bs m (fold_left (trained_on lr) bs m).
Proof.
  induction bs as [|b t IH]; intros m Hfit Hclear Hok; simpl.
  - constructor.
  - inversion Hok as [|? ? Hb Ht]; subst.
    destruct (training_value_ok _ _ _ b Hfit Hb) as [x [y [out [Hbt Hv]]]].
    apply trained_cons with (images := x) (labels := y)
                            (m1 := trained_on lr m b).
    + exact Hbt.
    + unfold trained_on. rewrite Hv. simpl. now apply one_step_sgd.
    + apply IH; [now apply fits_trained_on
                | now apply grads_clear_trained_on | exact Ht].
Qed.

(** The epoch loop: [n] more epochs return [n] more results, make the
    calls of [run_calls] and run as [epochs_run] describes. *)
Lemma fit_loop_returns (pixels classes : nat) (lr : Q)
  (train_loader val_loader : Loader) (n : nat) :
  yields_batches pixels classes train_loader ->
  yields_batches pixels classes val_loader ->
  never_empty val_loader ->
  forall (epoch : nat) (history : list Metrics) (st : State),
  fits pixels classes (st_model st) ->
  grads_clear (st_model st) ->
  exists h,
    length h = n /\
    epochs_run lr (fst (epoch_batches n train_loader val_loader (st_rng st)))
               (st_model st) h
               (trained lr (fst (epoch_batches n train_loader val_loader (st_rng st)))
                        (st_model st)) /\
    expected_history lr
      (fst (epoch_batches n train_loader val_loader (st_rng st))) (st_model st)
    = Ok h /\
    fit_loop n epoch (SGD lr) train_loader val_loader history st
    = Returned (history ++ h)
        (mkState
           (trained lr (fst (epoch_batches n train_loader val_loader (st_rng st)))
                    (st_model st))
           (snd (epoch_batches n train_loader val_loader (st_rng st)))
           (st_trace st
            ++ run_calls lr epoch
                 (fst (epoch_batches n train_loader val_loader (st_rng st))) h)
           (st_files st)).
Proof.
  intros Htrain Hval Hne.
  induction n as [|n IH]; intros epoch history st Hfit Hclear.
  - exists []. split; [reflexivity|]. split; [constructor|].
    split; [reflexivity|]. simpl. unfold ret.
    destruct st. simpl. now rewrite !app_nil_r.
  - simpl fit_loop. simpl epoch_batches.
    unfold bind at 1, batches_of.
    pose proof (Htrain (st_rng st)) as Htb.
    destruct (dl_iter train_loader (st_rng st)) as [tb r1] eqn:Htr.
    simpl in Htb.
    unfold bind at 1.
    rewrite (for_each_train_returns pixels classes lr tb
               (mkState (st_model st) r1 (st_trace st) (st_files st)) Hfit Htb).
    simpl.
    pose proof (trained_by_epoch pixels classes lr tb _ Hfit Hclear Htb) as Hby.
    set (m1 := fold_left (trained_on lr) tb (st_model st)) in *.
    set (st1 := mkState m1 r1 (st_trace st ++ flat_map (batch_calls lr) tb)
                        (st_files st)).
    assert (Hfit1 : fits pixels classes (st_model st1))
      by (apply fits_epoch; exact Hfit).
    assert (Hclear1 : grads_clear (st_model st1))
      by (apply grads_clear_epoch; exact Hclear).
    pose proof (Hval r1) as Hvb. pose proof (Hne r1) as Hvne.
    destruct Hfit1 as [Hm1 [Hp1 Hc1]].
    assert (Hvb' : Forall (fun b => batch_ok (in_features (linear1 (st_model st1)))
                                     (out_features (linear3 (st_model st1))) b = true)
                          (fst (dl_iter val_loader (st_rng st1))))
      by (rewrite Hp1, Hc1; exact Hvb).
    destruct (evaluate_returns val_loader st1 Hm1 Hvne Hvb')
      as [rs [Hrs [Hend Hev]]].
    pose proof (evaluate_value val_loader st1) as Hval1.
    rewrite Hev in Hval1. simpl in Hval1.
    unfold bind at 1. rewrite Hev. simpl in *.
    destruct (dl_iter val_loader r1) as [vb r2] eqn:Hvl. simpl in *.
    set (result := mkMetrics (arithmetic_mean (map val_loss rs))
                             (arithmetic_mean (map val_acc rs))) in *.
    unfold bind at 1, epoch_end, emit. simpl.
    set (st2 := mkState m1 r2 _ (st_files st)).
    destruct (IH (S epoch) (history ++ [result]) st2
                 (conj Hm1 (conj Hp1 Hc1)) Hclear1)
      as [h [Hlen [Hrun [Hexp Hloop]]]].
    exists (result :: h). split; [simpl; now rewrite Hlen|].
    rewrite Hloop. simpl in *.
    destruct (epoch_batches n train_loader val_loader r2) as [rest r3]. simpl in *.
    split; [|split].
    + apply epochs_cons with (m1 := m1) (rs := rs); assumption.
    + fold m1. rewrite <- Hval1. simpl. rewrite Hexp. reflexivity.
    + unfold epoch_calls. rewrite <- !app_assoc. simpl. reflexivity.
Qed.


End FitProperties.


Section ScheduleProperties.

Context {L : TorchLib}.

(** [fit] in full: what it returns and the state it leaves. *)
Lemma fit_returns (pixels classes epochs : nat) (lr : Q)
  (train_loader val_loader : Loader) (st : State) :
  fits pixels classes (st_model st) ->
  grads_clear (st_model st) ->
  yields_batches pixels classes train_loader ->
  yields_batches pixels classes val_loader ->
  never_empty val_loader ->
  exists h,
    length h = epochs /\
    epochs_run lr (fst (epoch_batches epochs train_loader val_loader (st_rng st)))
               (st_model st) h
               (trained lr (fst (epoch_batches epochs train_loader val_loader (st_rng st)))
                        (st_model st)) /\
    fit epochs lr train_loader val_loader st
    = Returned h
        (mkState
           (trained lr (fst (epoch_batches epochs train_loader val_loader (st_rng st)))
                    (st_model st))
           (snd (epoch_batches epochs train_loader val_loader (st_rng st)))
           (st_trace st
            ++ run_calls lr 0
                 (fst (epoch_batches epochs train_loader val_loader (st_rng st))) h)
           (st_files st)).
Proof.
  intros Hfit Hclear Htrain Hval Hne.
  destruct (fit_loop_returns pixels classes lr train_loader val_loader epochs
              Htrain Hval Hne 0%nat [] st Hfit Hclear)
    as [h [Hlen [Hrun [_ Hloop]]]].
  exists h. split; [exact Hlen|]. split; [exact Hrun|]. exact Hloop.
Qed.

(** C6.  [fit] with no epoch returns the empty history and the state it
    was given, parameters included; the baseline evaluation followed by
    such a call therefore yields the baseline entry alone, and the model
    is the one the run started with. *)
Theorem fit_zero_epochs (lr : Q) (train_loader val_loader : Loader) (st : State) :
  fit 0 lr train_loader val_loader st = Returned [] st /\
  baseline_then_fit0 lr train_loader val_loader st
  = match evaluate val_loader st with
    | Returned r0 st' => Returned [r0] st'
    | Raised e st' => Raised e st'
    end /\
  st_model (final_state (baseline_then_fit0 lr train_loader val_loader st))
  = st_model st.
Proof.
  split; [reflexivity|].
  assert (Hrun : baseline_then_fit0 lr train_loader val_loader st
                 = match evaluate val_loader st with
                   | Returned r0 st' => Returned [r0] st'
                   | Raised e st' => Raised e st'
                   end).
  { unfold baseline_then_fit0, bind.
    destruct (evaluate val_loader st) as [r0 st'|e st']; reflexivity. }
  split; [exact Hrun|].
  rewrite Hrun.
  destruct (evaluate_frame val_loader st) as [n Hn].
  destruct (evaluate val_loader st) as [r0 st'|e st'];
    simpl in *; subst st'; reflexivity.
Qed.

(** C5.  The schedule of the script, on a well-shaped model without
    accumulated gradients and loaders that yield well-formed batches: the
    baseline evaluation, then [fit] with (5, 0.5), (25, 0.1) and
    (15, 0.05), each started in the state the previous call left.  The
    history is the baseline followed by the three histories in order, 46
    entries in all, and each call runs its epochs from the model the
    call before it left. *)
Theorem training_schedule_history (pixels classes : nat)
  (train_loader val_loader : Loader) (st : State) :
  fits pixels classes (st_model st) ->
  grads_clear (st_model st) ->
  yields_batches pixels classes train_loader ->
  yields_batches pixels classes val_loader ->
  never_empty val_loader ->
  exists (r0 : Metrics) (h1 h2 h3 : list Metrics) (st1 st2 st3 st4 : State),
    evaluate val_loader st = Returned r0 st1 /\
    fit 5 (5 # 10) train_loader val_loader (logged [Ev_print_history [r0]] st1)
    = Returned h1 st2 /\
    fit 25 (1 # 10) train_loader val_loader st2 = Returned h2 st3 /\
    fit 15 (5 # 100) train_loader val_loader st3 = Returned h3 st4 /\
    training_schedule train_loader val_loader st
    = Returned (r0 :: h1 ++ h2 ++ h3) st4 /\
    length h1 = 5%nat /\ length h2 = 25%nat /\ length h3 = 15%nat /\
    length (r0 :: h1 ++ h2 ++ h3) = 46%nat /\
    epochs_run (5 # 10)
      (fst (epoch_batches 5 train_loader val_loader (st_rng st1)))
      (st_model st) h1 (st_model st2) /\
    epochs_run (1 # 10)
      (fst (epoch_batches 25 train_loader val_loader (st_rng st2)))
      (st_model st2) h2 (st_model st3) /\
    epochs_run (5 # 100)
      (fst (epoch_batches 15 train_loader val_loader (st_rng st3)))
      (st_model st3) h3 (st_model st4).
Proof.
  intros Hfit Hclear Htrain Hval Hne.
  destruct Hfit as [Hm [Hp Hc]].
  assert (Hvb : Forall (fun b => batch_ok (in_features (linear1 (st_model st)))
                                   (out_features (linear3 (st_model st))) b = true)
                       (fst (dl_iter val_loader (st_rng st))))
    by (rewrite Hp, Hc; apply Hval).
  destruct (evaluate_returns val_loader st Hm (Hne _) Hvb) as [rs [_ [_ Hev]]].
  match type of Hev with _ = Returned ?r ?s => set (r0 := r) in *; set (st1 := s) in * end.
  set (st1' := logged [Ev_print_history [r0]] st1).
  assert (Hf1 : fits pixels classes (st_model st1')) by (repeat split; assumption).
  destruct (fit_returns pixels classes 5 (5 # 10) train_loader val_loader st1'
              Hf1 Hclear Htrain Hval Hne) as [h1 [Hl1 [Hr1 He1]]].
  match type of He1 with _ = Returned _ ?s => set (st2 := s) in * end.
  assert (Hf2 : fits pixels classes (st_model st2))
    by (apply fits_trained; exact Hf1).
  assert (Hc2 : grads_clear (st_model st2))
    by (apply grads_clear_trained; exact Hclear).
  destruct (fit_returns pixels classes 25 (1 # 10) train_loader val_loader st2
              Hf2 Hc2 Htrain Hval Hne) as [h2 [Hl2 [Hr2 He2]]].
  match type of He2 with _ = Returned _ ?s => set (st3 := s) in * end.
  assert (Hf3 : fits pixels classes (st_model st3))
    by (apply fits_trained; exact Hf2).
  assert (Hc3 : grads_clear (st_model st3))
    by (apply grads_clear_trained; exact Hc2).
  destruct (fit_returns pixels classes 15 (5 # 100) train_loader val_loader st3
              Hf3 Hc3 Htrain Hval Hne) as [h3 [Hl3 [Hr3 He3]]].
  match type of He3 with _ = Returned _ ?s => set (st4 := s) in * end.
  exists r0, h1, h2, h3, st1, st2, st3, st4.
  split; [exact Hev|]. split; [exact He1|]. split; [exact He2|].
  split; [exact He3|]. split.
  - unfold training_schedule, bind at 1. rewrite Hev.
    unfold bind at 1, emit. fold (logged [Ev_print_history [r0]] st1).
    fold st1'. unfold bind at 1. rewrite He1.
    unfold bind at 1. rewrite He2.
    unfold bind at 1. rewrite He3.
    unfold ret. simpl. now rewrite <- app_assoc.
  - repeat split; auto.
    simpl. rewrite !length_app. lia.
Qed.

End ScheduleProperties.

Lemma training_schedule_history_witness :
  exists (r0 : Metrics) (h1 h2 h3 : list Metrics)
         (st1 st2 st3 st4 : @State demo_lib),
    evaluate demo_loader demo_state = Returned r0 st1 /\
    fit 5 (5 # 10) demo_loader demo_loader (logged [Ev_print_history [r0]] st1)
    = Returned h1 st2 /\
    fit 25 (1 # 10) demo_loader demo_loader st2 = Returned h2 st3 /\
    fit 15 (5 # 100) demo_loader demo_loader st3 = Returned h3 st4 /\
    training_schedule demo_loader demo_loader demo_state
    = Returned (r0 :: h1 ++ h2 ++ h3) st4 /\
    length h1 = 5%nat /\ length h2 = 25%nat /\ length h3 = 15%nat /\
    length (r0 :: h1 ++ h2 ++ h3) = 46%nat /\
    @epochs_run demo_lib (5 # 10)
      (fst (epoch_batches 5 demo_loader demo_loader (st_rng st1)))
      (st_model demo_state) h1 (st_model st2) /\
    @epochs_run demo_lib (1 # 10)
      (fst (epoch_batches 25 demo_loader demo_loader (st_rng st2)))
      (st_model st2) h2 (st_model st3) /\
    @epochs_run demo_lib (5 # 100)
      (fst (epoch_batches 15 demo_loader demo_loader (st_rng st3)))
      (st_model st3) h3 (st_model st4).
Proof.
  apply (training_schedule_history 2 2 demo_loader demo_loader demo_state).
  - unfold fits. repeat split.
  - unfold grads_clear. simpl. repeat split.
  - intros rng. simpl. repeat constructor.
  - intros rng. simpl. repeat constructor.
  - intros rng. simpl. discriminate.
Defined.

(* ------------------------------------------------------------------ *)
(** ** The device wrapper *)

(** Induction on data, with the hypothesis for every element of a list
    or of a tuple. *)
Lemma Data_induction (P : Data -> Prop) :
  (forall dev x, P (FloatTensor dev x)) ->
  (forall dev y, P (LongTensor dev y)) ->
  (forall l, Forall P l -> P (PyList l)) ->
  (forall l, Forall P l -> P (PyTuple l)) ->
  forall d, P d.
Proof.
  intros Hf Hl Hlist Htuple. fix IH 1. intros [dev x|dev y|l|l].
  - apply Hf.
  - apply Hl.
  - apply Hlist. induction l as [|a t IHt]; constructor; [apply IH | exact IHt].
  - apply Htuple. induction l as [|a t IHt]; constructor; [apply IH | exact IHt].
Qed.

Lemma device_eqb_refl (dev : Device) : device_eqb dev dev = true.
Proof. destruct dev; reflexivity. Qed.

Lemma map_ext_Forall {A B} (f g : A -> B) (l : list A) :
  Forall (fun x => f x = g x) l -> map f l = map g l.
Proof. induction 1; simpl; congruence. Qed.

Lemma forallb_map_Forall {A} (p : A -> bool) (f : A -> A) (l : list A) :
  Forall (fun x => p (f x) = true) l -> forallb p (map f l) = true.
Proof. induction 1 as [|x t Hx _ IH]; simpl; [reflexivity|]. now rewrite Hx. Qed.

Lemma flat_map_map_Forall {A B} (v : A -> list B) (f : A -> A) (l : list A) :
  Forall (fun x => v (f x) = v x) l -> flat_map v (map f l) = flat_map v l.
Proof. induction 1 as [|x t Hx _ IH]; simpl; [reflexivity|]. now rewrite Hx, IH. Qed.

(** What [to_device] returns is on the device and holds the contents it
    was given. *)
Lemma to_device_lands (d : Data) (device : Device) :
  all_on device (to_device d device) = true /\
  tensor_values (to_device d device) = tensor_values d.
Proof.
  induction d as [dev x|dev y|l IH|l IH] using Data_induction; simpl;
    try (split; auto using device_eqb_refl; fail); split.
  - apply forallb_map_Forall. eapply Forall_impl; [|exact IH]. now intros a [Ha _].
  - apply flat_map_map_Forall. eapply Forall_impl; [|exact IH]. now intros a [_ Ha].
  - apply forallb_map_Forall. eapply Forall_impl; [|exact IH]. now intros a [Ha _].
  - apply flat_map_map_Forall. eapply Forall_impl; [|exact IH]. now intros a [_ Ha].
Qed.

Section DeviceLoaderProperties.

Context {L : TorchLib}.

(** C10.  The wrapper reports the length of the loader it wraps; one
    traversal yields as many batches as the wrapped loader's, the i-th
    being the wrapped loader's i-th batch moved to the device: every
    tensor of it is on the device and holds the contents of the
    corresponding tensor of the wrapped loader's batch, in the same
    order; and the wrapper draws nothing more from the generator. *)
Theorem device_loader_preserves_batches (dl : Loader) (device : Device) (rng : RNG) :
  dl_len (DeviceDataLoader dl device) = dl_len dl /\
  length (fst (dl_iter (DeviceDataLoader dl device) rng))
  = length (fst (dl_iter dl rng)) /\
  (forall i,
     nth_error (fst (dl_iter (DeviceDataLoader dl device) rng)) i
     = option_map (fun b => to_device b device)
                  (nth_error (fst (dl_iter dl rng)) i)) /\
  (forall i b',
     nth_error (fst (dl_iter (DeviceDataLoader dl device) rng)) i = Some b' ->
     exists b, nth_error (fst (dl_iter dl rng)) i = Some b /\
               all_on device b' = true /\
               tensor_values b' = tensor_values b) /\
  snd (dl_iter (DeviceDataLoader dl device) rng) = snd (dl_iter dl rng).
Proof.
  unfold DeviceDataLoader. simpl.
  destruct (dl_iter dl rng) as [bs rng']. simpl.
  split; [reflexivity|]. split; [apply length_map|].
  split; [intros i; apply nth_error_map|]. split; [|reflexivity].
  intros i b' Hi. rewrite nth_error_map in Hi.
  destruct (nth_error bs i) as [b|]; simpl in Hi; [|discriminate].
  inversion Hi; subst b'. exists b. split; [reflexivity|].
  apply to_device_lands.
Qed.

End DeviceLoaderProperties.

Lemma device_loader_preserves_batches_witness :
  exists b, nth_error (fst (dl_iter demo_loader 0%nat)) 1 = Some b /\
            all_on cuda (to_device demo_batch cuda) = true /\
            tensor_values (to_device demo_batch cuda) = tensor_values b.
Proof.
  destruct (device_loader_preserves_batches demo_loader cuda 0%nat)
    as [_ [_ [_ [Hmoved _]]]].
  apply (Hmoved 1%nat (to_device demo_batch cuda)). reflexivity.
Defined.

(** After the move every tensor of the batch is on the device. *)
Example to_device_demo :
  to_device demo_batch cuda
  = PyList [FloatTensor cuda demo_images; LongTensor cuda [0; 1]%Z].
Proof. reflexivity. Qed.

(* ------------------------------------------------------------------ *)
(** ** The checkpoint *)

(** Loading the dictionary of [m] into a model of the same architecture
    succeeds and gives that model the parameter values of [m]. *)
Lemma load_state_dict_roundtrip (m m2 : CIFARModel) :
  same_architecture m2 m = true ->
  exists m2', load_state_dict (state_dict m) m2 = (m2', true) /\
              param_values m2' = param_values m.
Proof.
  unfold same_architecture. intros H.
  repeat match goal with
         | Hc : _ && _ = true |- _ => apply andb_true_iff in Hc; destruct Hc
         end.
  unfold load_state_dict, load_weight, load_bias, state_dict. cbn.
  repeat match goal with
         | Hs : ?c = true |- context [if ?c then _ else _] => rewrite Hs
         end.
  eexists. split; reflexivity.
Qed.

Section CheckpointProperties.

Context {L : TorchLib}.

(** C7.  Saving the parameter dictionary of the trained model and loading
    it into a fresh model of the same architecture succeeds and gives the
    fresh model the parameter values of the trained one; evaluated on a
    test loader that yields the same batches at every traversal, the
    reloaded model returns exactly what the trained model returned. *)
Theorem checkpoint_roundtrip (model2 : CIFARModel) (test_loader : Loader)
  (st st_later : State) :
  same_architecture model2 (st_model st) = true ->
  deterministic test_loader ->
  st_model st_later = st_model st ->
  (exists m2', load_state_dict (state_dict (st_model st)) model2 = (m2', true) /\
               param_values m2' = param_values (st_model st)) /\
  value_of (sanity_check model2 test_loader st_later)
  = value_of (evaluate test_loader st).
Proof.
  intros Harch Hdet Hsame.
  destruct (load_state_dict_roundtrip (st_model st) model2 Harch)
    as [m2' [Hload Hvals]].
  split; [exists m2'; auto|].
  unfold sanity_check, bind at 1, get_model.
  unfold bind at 1, torch_save. unfold bind at 1, torch_load. simpl.
  rewrite unpickle_pickle. unfold lift.
  rewrite Hsame, Hload.
  unfold bind at 1, on_model, ret.
  set (st2 := set_model m2' _).
  assert (Hev : value_of (evaluate test_loader st2)
                = value_of (evaluate test_loader st)).
  { apply evaluate_value_ext; [exact Hvals | apply Hdet]. }
  unfold bind at 1.
  destruct (evaluate test_loader st2) as [r s|e s]; simpl in *.
  - unfold bind. simpl. exact Hev.
  - exact Hev.
Qed.

End CheckpointProperties.

Lemma checkpoint_roundtrip_witness :
  (exists m2', load_state_dict (state_dict (st_model demo_state)) demo_model2
               = (m2', true) /\
               param_values m2' = param_values (st_model demo_state)) /\
  value_of (sanity_check demo_model2 demo_loader demo_state)
  = value_of (evaluate demo_loader demo_state).
Proof.
  apply (checkpoint_roundtrip demo_model2 demo_loader demo_state demo_state).
  - reflexivity.
  - intros r r'. reflexivity.
  - reflexivity.
Defined.

(** A model of another architecture is refused. *)
Example load_state_dict_shape_mismatch :
  snd (load_state_dict (state_dict demo_model)
         (mkModel (demo_layer [[1; 0; 0]; [0; 1; 0]] [0; 0])
                  (linear2 demo_model) (linear3 demo_model)))
  = false.
Proof. reflexivity. Qed.

(* ------------------------------------------------------------------ *)
(** ** The metrics record *)

(** C9, on the code as written.  The record has the four keys, in the
    order val_acc, val_loss, test_acc, test_loss; the first three are
    bound to numbers, the text bound to test_loss is [1.6940.], which is
    no number: after [1.6940] a second point is left over.  The display
    does not evaluate, so nothing is written. *)
Theorem metrics_test_loss_malformed :
  map fst metrics_source
  = ["val_acc"%string; "val_loss"%string; "test_acc"%string; "test_loss"%string] /\
  map (fun kv => is_number_literal (snd kv)) metrics_source
  = [true; true; true; false] /\
  scan_number (list_ascii_of_string "1.6940.") = Some ["."%char] /\
  numeric_record metrics_source = false.
Proof. repeat split; reflexivity. Qed.

(** Without the trailing point the value is a number. *)
Example test_loss_repaired : is_number_literal "1.6940" = true.
Proof. reflexivity. Qed.

Example number_literals :
  map is_number_literal
      ["12"%string; "1."%string; ".5"%string; "1e10"%string;
       "1_000.5e-3"%string; "1__0"%string; "e5"%string; ""%string]
  = [true; true; true; true; true; false; false; false].
Proof. reflexivity. Qed.


(* ================================================================== *)
(** * Further properties of the code *)

(** ** accuracy *)

Lemma res_map_inv {A B} (f : A -> res B) (l : list A) (r : list B) :
  res_map f l = Ok r -> Forall (fun x => exists y, f x = Ok y) l.
Proof.
  revert r. induction l as [|x t IH]; intros r H; [constructor|].
  simpl in H. destruct (f x) as [y|] eqn:Hx; simpl in H; [|discriminate].
  destruct (res_map f t) as [ys|] eqn:Ht; simpl in H; [|discriminate].
  constructor; eauto.
Qed.

Lemma tensor_eq_lengths (a b : IntVector) (mask : list bool) :
  tensor_eq a b = Ok mask ->
  length a = length b \/ length a = 1%nat \/ length b = 1%nat.
Proof.
  unfold tensor_eq. destruct (Nat.eqb_spec (length a) (length b)) as [He|_].
  - auto.
  - destruct a as [|x [|x' a]]; destruct b as [|y [|y' b]]; simpl;
      auto; discriminate.
Qed.

(** X1.  [accuracy] returns only on a batch with at least one sample, whose
    every row holds at least one score, and whose labels are as many as
    the samples unless one of the two has a single element; its value is
    then never negative. *)
Theorem accuracy_returns_only_on_proper_batch
  (outputs : Matrix) (labels : IntVector) (a : Q) :
  accuracy outputs labels = Ok a ->
  outputs <> [] /\
  Forall (fun row => row <> []) outputs /\
  (length labels = length outputs \/ length outputs = 1%nat
   \/ length labels = 1%nat) /\
  0 <= a.
Proof.
  unfold accuracy, torch_max_dim1. intros H.
  destruct (res_map torch_max_row outputs) as [vi|] eqn:Hvi; simpl in H;
    [|discriminate].
  pose proof (res_map_length _ _ _ Hvi) as Hlen.
  destruct (tensor_eq (map (fun p => Z.of_nat (snd p)) vi) labels)
    as [mask|] eqn:Hmask; simpl in H; [|discriminate].
  apply tensor_eq_lengths in Hmask. rewrite length_map, Hlen in Hmask.
  unfold py_truediv in H. rewrite length_map, Hlen in H.
  destruct (Z.eqb_spec (Z.of_nat (length outputs)) 0) as [Hz|Hnz];
    [discriminate|].
  inversion H; subst a. clear H.
  repeat split.
  - intros ->. simpl in Hnz. lia.
  - apply res_map_inv in Hvi. eapply Forall_impl; [|exact Hvi].
    intros row [y Hy] ->. discriminate.
  - destruct Hmask as [Hm|[Hm|Hm]]; auto.
  - apply Qle_shift_div_l.
    + change 0 with (inject_Z 0). rewrite <- Zlt_Qlt. lia.
    + rewrite Qmult_0_l. change 0 with (inject_Z 0). rewrite <- Zle_Qle.
      unfold torch_sum_bool. lia.
Qed.

Lemma accuracy_returns_only_on_proper_batch_witness :
  demo_scores <> [] /\
  Forall (fun row => row <> []) demo_scores /\
  (length demo_labels = length demo_scores \/ length demo_scores = 1%nat
   \/ length demo_labels = 1%nat) /\
  0 <= 3 # 4.
Proof.
  apply (accuracy_returns_only_on_proper_batch demo_scores demo_labels (3 # 4)).
  reflexivity.
Defined.

Lemma max_scan_map (f : Q -> Q) :
  (forall a b, Qltb (f a) (f b) = Qltb a b) ->
  forall (t : list Q) (best : Q) (bi i : nat),
    max_scan (f best) bi i (map f t)
    = (f (fst (max_scan best bi i t)), snd (max_scan best bi i t)).
Proof.
  intros Hf. induction t as [|x t IH]; intros best bi i; simpl; [reflexivity|].
  rewrite Hf. destruct (Qltb best x); apply IH.
Qed.

Lemma torch_max_dim1_map (f : Q -> Q) :
  (forall a b, Qltb (f a) (f b) = Qltb a b) ->
  forall outputs : Matrix,
    res_bind (torch_max_dim1 (map (map f) outputs)) (fun vp => Ok (snd vp))
    = res_bind (torch_max_dim1 outputs) (fun vp => Ok (snd vp)).
Proof.
  intros Hf outputs. unfold torch_max_dim1.
  induction outputs as [|row t IH]; [reflexivity|]. simpl.
  destruct row as [|x r]; simpl; [reflexivity|].
  rewrite (max_scan_map f Hf).
  destruct (res_map torch_max_row (map (map f) t)) as [vi|];
    destruct (res_map torch_max_row t) as [vi'|]; simpl in *;
    try discriminate.
  - inversion IH as [Hp]. now rewrite Hp.
  - exact IH.
Qed.

(** X2.  [accuracy] depends on the order of the scores only: applying one
    strictly increasing function to every score leaves it unchanged. *)
Theorem accuracy_monotone_invariant (f : Q -> Q)
  (outputs : Matrix) (labels : IntVector) :
  (forall a b, Qltb (f a) (f b) = Qltb a b) ->
  accuracy (map (map f) outputs) labels = accuracy outputs labels.
Proof.
  intros Hf. pose proof (torch_max_dim1_map f Hf outputs) as H.
  unfold accuracy.
  destruct (torch_max_dim1 (map (map f) outputs)) as [[v p]|];
    destruct (torch_max_dim1 outputs) as [[v' p']|]; simpl in *;
    try discriminate.
  - inversion H; subst. reflexivity.
  - inversion H; subst. reflexivity.
Qed.

Lemma Qltb_shift (c a b : Q) : Qltb (a + c) (b + c) = Qltb a b.
Proof.
  unfold Qltb. f_equal. apply eq_true_iff_eq.
  rewrite !Qle_bool_iff. apply Qplus_le_l.
Qed.

Lemma accuracy_monotone_invariant_witness :
  accuracy (map (map (fun x => x + (1 # 2))) demo_scores) demo_labels
  = accuracy demo_scores demo_labels.
Proof.
  apply (accuracy_monotone_invariant (fun x => x + (1 # 2)) demo_scores demo_labels).
  intros a b. apply Qltb_shift.
Defined.

(* ------------------------------------------------------------------ *)
(** ** to_device and the device wrapper *)

(** X3.  Whatever the data, the result of [to_device] has every tensor on
    the device and holds no tuple, and its tensors have the contents of
    the tensors given, in the same order. *)
Theorem to_device_moves_everything (d : Data) (device : Device) :
  all_on device (to_device d device) = true /\
  tuple_free (to_device d device) = true /\
  tensor_values (to_device d device) = tensor_values d.
Proof.
  induction d as [dev x|dev y|l IH|l IH] using Data_induction; simpl;
    try (repeat split; auto using device_eqb_refl; fail).
  - repeat split.
    + rewrite forallb_forall. intros y Hy. apply in_map_iff in Hy.
      destruct Hy as [x [<- Hx]]. rewrite Forall_forall in IH. now apply IH.
    + rewrite forallb_forall. intros y Hy. apply in_map_iff in Hy.
      destruct Hy as [x [<- Hx]]. rewrite Forall_forall in IH. now apply IH.
    + induction IH as [|x t [_ [_ Hx]] _ IHt]; simpl; [reflexivity|].
      now rewrite Hx, IHt.
  - repeat split.
    + rewrite forallb_forall. intros y Hy. apply in_map_iff in Hy.
      destruct Hy as [x [<- Hx]]. rewrite Forall_forall in IH. now apply IH.
    + rewrite forallb_forall. intros y Hy. apply in_map_iff in Hy.
      destruct Hy as [x [<- Hx]]. rewrite Forall_forall in IH. now apply IH.
    + induction IH as [|x t [_ [_ Hx]] _ IHt]; simpl; [reflexivity|].
      now rewrite Hx, IHt.
Qed.

Lemma to_device_twice (d : Data) (a b : Device) :
  to_device (to_device d a) b = to_device d b.
Proof.
  induction d as [dev x|dev y|l IH|l IH] using Data_induction; simpl;
    try reflexivity; f_equal; rewrite map_map; now apply map_ext_Forall.
Qed.

(** X4.  Moving data to a device and then to another gives what moving it to
    the second gives; in particular moving twice to one device changes
    nothing more. *)
Theorem to_device_composes (d : Data) (a b : Device) :
  to_device (to_device d a) b = to_device d b /\
  to_device (to_device d a) a = to_device d a.
Proof. split; apply to_device_twice. Qed.

Example to_device_nested :
  to_device demo_nested cuda
  = PyList [PyList [FloatTensor cuda demo_images; LongTensor cuda [0; 1]%Z];
            PyList [LongTensor cuda [2]%Z]].
Proof. reflexivity. Qed.

Section DeviceLoaderComposition.

Context {L : TorchLib}.

(** X5.  A wrapper around a wrapper yields, traversal by traversal, what one
    wrapper for the outer device yields, and has the same length. *)
Theorem device_loader_twice (dl : Loader) (a b : Device) (rng : RNG) :
  dl_iter (DeviceDataLoader (DeviceDataLoader dl a) b) rng
  = dl_iter (DeviceDataLoader dl b) rng /\
  dl_len (DeviceDataLoader (DeviceDataLoader dl a) b)
  = dl_len (DeviceDataLoader dl b).
Proof.
  unfold DeviceDataLoader. simpl.
  destruct (dl_iter dl rng) as [bs rng']. split; [|reflexivity].
  f_equal. rewrite map_map. apply map_ext. intros x. apply to_device_twice.
Qed.

End DeviceLoaderComposition.

(* ------------------------------------------------------------------ *)
(** ** evaluate and validation_epoch_end *)

Lemma filter_length_le {A} (p : A -> bool) (l : list A) :
  (length (filter p l) <= length l)%nat.
Proof. induction l as [|x t IH]; simpl; [lia|]. destruct (p x); simpl; lia. Qed.

Lemma accuracy_in_unit (outputs : Matrix) (labels : IntVector) (a : Q) :
  length labels = length outputs ->
  accuracy outputs labels = Ok a -> 0 <= a /\ a <= 1.
Proof.
  unfold accuracy, torch_max_dim1. intros Hlen H.
  destruct (res_map torch_max_row outputs) as [vi|] eqn:Hvi; simpl in H;
    [|discriminate].
  pose proof (res_map_length _ _ _ Hvi) as Hvilen.
  unfold tensor_eq in H. rewrite !length_map, Hvilen, Hlen, Nat.eqb_refl in H.
  simpl in H. unfold py_truediv, torch_sum_bool in H.
  destruct (Z.eqb_spec (Z.of_nat (length outputs)) 0) as [Hz|Hnz];
    [discriminate|].
  inversion H; subst a. apply fraction_bounds; [|lia].
  etransitivity; [apply filter_length_le|].
  rewrite length_map, length_combine, length_map. lia.
Qed.

Lemma Qsum_bounds (xs : list Q) :
  Forall (fun x => 0 <= x /\ x <= 1) xs ->
  0 <= Qsum xs /\ Qsum xs <= inject_Z (Z.of_nat (length xs)).
Proof.
  induction 1 as [|x t [Hlo Hhi] _ [IHlo IHhi]]; simpl.
  - split; apply Qle_refl.
  - split.
    + change 0 with (0 + 0). now apply Qplus_le_compat.
    + rewrite Zpos_P_of_succ_nat, <- Z.add_1_l, inject_Z_plus.
      now apply Qplus_le_compat.
Qed.

Lemma arithmetic_mean_bounds (xs : list Q) :
  xs <> [] -> Forall (fun x => 0 <= x /\ x <= 1) xs ->
  0 <= arithmetic_mean xs /\ arithmetic_mean xs <= 1.
Proof.
  intros Hne Hxs. destruct (Qsum_bounds xs Hxs) as [Hlo Hhi].
  assert (Hpos : 0 < inject_Z (Z.of_nat (length xs))).
  { change 0 with (inject_Z 0). rewrite <- Zlt_Qlt.
    destruct xs; [congruence | simpl; lia]. }
  unfold arithmetic_mean. split.
  - apply Qle_shift_div_l; [exact Hpos|]. now rewrite Qmult_0_l.
  - apply Qle_shift_div_r; [exact Hpos|]. now rewrite Qmult_1_l.
Qed.

Section EvaluateFurther.

Context {L : TorchLib}.

Lemma evaluate_without_batches_raises_aux (val_loader : Loader) (st : State) :
  fst (dl_iter val_loader (st_rng st)) = [] ->
  evaluate val_loader st
  = Raised RuntimeError
      (mkState (st_model st) (snd (dl_iter val_loader (st_rng st)))
               (st_trace st) (st_files st)).
Proof.
  intros H. unfold evaluate, bind, batches_of.
  destruct (dl_iter val_loader (st_rng st)) as [bs rng']. simpl in *.
  subst bs. reflexivity.
Qed.

(** X6.  On a loader that yields no batch [evaluate] raises [RuntimeError],
    whatever the model; it has called nothing and changed nothing but
    the generator, which the traversal may have advanced. *)
Theorem evaluate_without_batches_raises (val_loader : Loader) (st : State) :
  fst (dl_iter val_loader (st_rng st)) = [] ->
  evaluate val_loader st
  = Raised RuntimeError
      (mkState (st_model st) (snd (dl_iter val_loader (st_rng st)))
               (st_trace st) (st_files st)).
Proof. apply evaluate_without_batches_raises_aux. Qed.

Lemma validation_value_accuracy (m : CIFARModel) (b : Data) (r : Metrics) :
  validation_value m b = Ok r -> 0 <= val_acc r /\ val_acc r <= 1.
Proof.
  unfold validation_value. intros H.
  destruct (unpack_batch b) as [[images labels]|]; simpl in H; [|discriminate].
  destruct (call_model m images) as [out|]; simpl in H; [|discriminate].
  destruct (F_cross_entropy out labels) as [loss|] eqn:Hce; simpl in H;
    [|discriminate].
  destruct (accuracy_of out labels) as [acc|] eqn:Hacc; simpl in H;
    [|discriminate].
  inversion H; subst r. simpl.
  destruct labels as [[dev x|dev y|l|l]|dev x|dev y]; simpl in Hce, Hacc;
    try discriminate.
  destruct (Nat.eqb_spec (length y) (length out)) as [Hlen|]; simpl in Hce;
    [|discriminate].
  now apply (accuracy_in_unit out y).
Qed.

(** X7.  Whenever [evaluate] returns, the epoch accuracy it returns lies
    between 0 and 1. *)
Theorem evaluate_accuracy_in_unit_interval (val_loader : Loader) (st : State)
  (result : Metrics) :
  value_of (evaluate val_loader st) = Ok result ->
  0 <= val_acc result /\ val_acc result <= 1.
Proof.
  rewrite evaluate_value. intros H.
  destruct (res_map (validation_value (st_model st))
                    (fst (dl_iter val_loader (st_rng st)))) as [rs|] eqn:Hrs;
    simpl in H; [|discriminate].
  assert (Hall : Forall (fun r => 0 <= val_acc r /\ val_acc r <= 1) rs).
  { apply res_map_Forall2 in Hrs.
    clear H. induction Hrs as [|b r bs rs' Hb _ IH]; [constructor|].
    constructor; [|exact IH].
    now apply (validation_value_accuracy (st_model st) b). }
  destruct rs as [|r0 rs']; [discriminate|].
  rewrite validation_epoch_end_mean in H by discriminate.
  inversion H; subst result. simpl val_acc.
  apply arithmetic_mean_bounds; [discriminate|].
  change (val_acc r0 :: map val_acc rs') with (map val_acc (r0 :: rs')).
  apply Forall_map. exact Hall.
Qed.

(** X8.  Evaluating again, on a loader that yields the same batches at every
    traversal, returns what the first evaluation returned. *)
Theorem evaluate_is_repeatable (val_loader : Loader) (st : State) :
  deterministic val_loader ->
  value_of (evaluate val_loader (final_state (evaluate val_loader st)))
  = value_of (evaluate val_loader st).
Proof.
  intros Hdet. destruct (evaluate_frame val_loader st) as [n Hn].
  apply evaluate_value_ext; rewrite Hn; simpl; [reflexivity | apply Hdet].
Qed.

End EvaluateFurther.

Lemma evaluate_without_batches_raises_witness :
  evaluate demo_empty_loader demo_state
  = Raised RuntimeError
      (mkState (st_model demo_state)
               (snd (dl_iter demo_empty_loader (st_rng demo_state)))
               (st_trace demo_state) (st_files demo_state)).
Proof.
  apply (evaluate_without_batches_raises demo_empty_loader demo_state).
  reflexivity.
Defined.

Lemma evaluate_accuracy_in_unit_interval_witness :
  value_of (evaluate demo_uneven_loader demo_state)
  = Ok (mkMetrics (52 # 2) (3 # 6)) /\
  0 <= 3 # 6 /\ 3 # 6 <= 1.
Proof.
  split; [reflexivity|].
  apply (evaluate_accuracy_in_unit_interval demo_uneven_loader demo_state
           (mkMetrics (52 # 2) (3 # 6))).
  reflexivity.
Defined.

Lemma evaluate_is_repeatable_witness :
  value_of (evaluate demo_loader (final_state (evaluate demo_loader demo_state)))
  = value_of (evaluate demo_loader demo_state).
Proof.
  apply (evaluate_is_repeatable demo_loader demo_state).
  intros r r'. reflexivity.
Defined.


(* ------------------------------------------------------------------ *)
(** ** fit *)

Lemma shape_eqb_refl (a : list nat) : shape_eqb a a = true.
Proof. induction a as [|x a IH]; simpl; [reflexivity|]. now rewrite Nat.eqb_refl. Qed.

Lemma same_architecture_refl (m : CIFARModel) : same_architecture m m = true.
Proof.
  unfold same_architecture. now rewrite !shape_eqb_refl, !Nat.eqb_refl.
Qed.

Section FitFurther.

Context {L : TorchLib}.

Lemma final_state_bind {A B} (c : M A) (k : A -> M B) (st : State) :
  final_state (bind c k st)
  = match c st with
    | Returned a st' => final_state (k a st')
    | Raised _ st' => st'
    end.
Proof. unfold bind. destruct (c st); reflexivity. Qed.

Lemma same_architecture_trained_on (lr : Q) (m0 m : CIFARModel) (b : Data) :
  same_architecture m0 m = true ->
  same_architecture m0 (trained_on lr m b) = true.
Proof.
  unfold trained_on. intros H.
  destruct (training_value m b) as [loss|]; [|exact H].
  revert H.
  generalize (cross_entropy_grad m (loss_images loss) (loss_labels loss)).
  intros g.
  unfold same_architecture, zero_grad, sgd_step, accumulate_grads, map_params,
    sgd_update, clear_grad, accumulate.
  destruct m as [[[w1 gw1] [b1 gb1]] [[w2 gw2] [b2 gb2]] [[w3 gw3] [b3 gb3]]].
  simpl.
  destruct gw1, gb1, gw2, gb2, gw3, gb3; simpl;
    rewrite ?row_lengths_mat_zip, ?length_vec_zip; auto.
Qed.

(** The model a batch leaves, whether the loop body returns or raises. *)
Lemma train_on_batch_model (lr : Q) (b : Data) (st : State) :
  st_model (final_state (train_on_batch (SGD lr) b st))
  = trained_on lr (st_model st) b.
Proof.
  unfold train_on_batch, training_step, backward, optimizer_step,
    optimizer_zero_grad, bind, lift, get_model, emit, update_model, ret,
    trained_on, training_value.
  destruct (unpack_batch b) as [[images labels]|]; simpl; [|reflexivity].
  destruct (call_model (st_model st) images) as [out|]; simpl; [|reflexivity].
  destruct (F_cross_entropy out labels) as [loss|]; simpl; [|reflexivity].
  destruct (loss_tensor loss images labels); reflexivity.
Qed.

Section Invariant.

Variable P : CIFARModel -> Prop.
Variable lr : Q.
Hypothesis P_trained_on : forall m b, P m -> P (trained_on lr m b).

Lemma for_each_train_inv (bs : list Data) :
  forall st, P (st_model st) ->
  P (st_model (final_state (for_each (train_on_batch (SGD lr)) bs st))).
Proof.
  induction bs as [|b t IH]; intros st HP; [exact HP|].
  simpl. rewrite final_state_bind.
  pose proof (train_on_batch_model lr b st) as Hm.
  destruct (train_on_batch (SGD lr) b st) as [u st1|e st1]; simpl in Hm.
  - apply IH. rewrite Hm. now apply P_trained_on.
  - rewrite Hm. now apply P_trained_on.
Qed.

Lemma fit_loop_inv (train_loader val_loader : Loader) (n : nat) :
  forall epoch history st, P (st_model st) ->
  P (st_model (final_state
       (fit_loop n epoch (SGD lr) train_loader val_loader history st))).
Proof.
  induction n as [|n IH]; intros epoch history st HP; [exact HP|].
  simpl fit_loop. rewrite final_state_bind. unfold batches_of at 1.
  destruct (dl_iter train_loader (st_rng st)) as [tb r1].
  rewrite final_state_bind.
  set (st0 := mkState (st_model st) r1 (st_trace st) (st_files st)).
  pose proof (for_each_train_inv tb st0 HP) as H1.
  destruct (for_each (train_on_batch (SGD lr)) tb st0) as [u st1|e st1];
    simpl in H1; [|exact H1].
  rewrite final_state_bind.
  destruct (evaluate_frame val_loader st1) as [k Hk].
  destruct (evaluate val_loader st1) as [r st2|e st2]; simpl in Hk; subst st2;
    [|exact H1].
  rewrite final_state_bind. unfold epoch_end, emit.
  apply IH. exact H1.
Qed.

End Invariant.

(** X12.  [fit] never leaves an accumulated gradient behind: started on a
    model without gradients it ends, returning or raising, on a model
    without gradients. *)
Theorem fit_leaves_gradients_clear (epochs : nat) (lr : Q)
  (train_loader val_loader : Loader) (st : State) :
  grads_clear (st_model st) ->
  grads_clear
    (st_model (final_state (fit epochs lr train_loader val_loader st))).
Proof.
  intros H. unfold fit.
  apply (fit_loop_inv grads_clear lr (grads_clear_trained_on lr)); exact H.
Qed.

(** X13.  [fit] never changes the shape of a parameter: whether it returns or
    raises, the model it leaves has the architecture of the model it was
    given. *)
Theorem fit_keeps_architecture (epochs : nat) (lr : Q)
  (train_loader val_loader : Loader) (st : State) :
  same_architecture (st_model st)
    (st_model (final_state (fit epochs lr train_loader val_loader st)))
  = true.
Proof.
  unfold fit.
  apply (fit_loop_inv (fun m => same_architecture (st_model st) m = true) lr
           (same_architecture_trained_on lr (st_model st))).
  apply same_architecture_refl.
Qed.

(** X14.  With a validation loader that yields no batch, [fit] with at least
    one epoch raises [RuntimeError] only after the first training phase:
    the model it leaves has taken one descent step per training batch,
    the calls of the training batches have been made, and no history is
    returned. *)
Theorem fit_trains_before_validation_raises (pixels classes n : nat) (lr : Q)
  (train_loader val_loader : Loader) (st : State) :
  fits pixels classes (st_model st) ->
  grads_clear (st_model st) ->
  Forall (fun b => batch_ok pixels classes b = true)
         (fst (dl_iter train_loader (st_rng st))) ->
  fst (dl_iter val_loader (snd (dl_iter train_loader (st_rng st)))) = [] ->
  exists m' : CIFARModel,
    trained_by lr (fst (dl_iter train_loader (st_rng st))) (st_model st) m' /\
    fit (S n) lr train_loader val_loader st
    = Raised RuntimeError
        (mkState m'
           (snd (dl_iter val_loader (snd (dl_iter train_loader (st_rng st)))))
           (st_trace st
            ++ flat_map (batch_calls lr) (fst (dl_iter train_loader (st_rng st))))
           (st_files st)).
Proof.
  intros Hfit Hclear Hok Hempty.
  exists (fold_left (trained_on lr) (fst (dl_iter train_loader (st_rng st)))
                    (st_model st)).
  split; [now apply (trained_by_epoch pixels classes)|].
  unfold fit. simpl fit_loop.
  unfold bind at 1, batches_of at 1.
  destruct (dl_iter train_loader (st_rng st)) as [tb r1]. simpl in *.
  unfold bind at 1.
  rewrite (for_each_train_returns pixels classes lr tb
             (mkState (st_model st) r1 (st_trace st) (st_files st)) Hfit Hok).
  simpl. unfold bind at 1.
  rewrite evaluate_without_batches_raises_aux by exact Hempty.
  reflexivity.
Qed.

End FitFurther.

Lemma fit_leaves_gradients_clear_witness :
  grads_clear
    (st_model (final_state (fit 2 (1 # 2) demo_loader demo_empty_loader demo_state))).
Proof.
  apply (fit_leaves_gradients_clear 2 (1 # 2) demo_loader demo_empty_loader
           demo_state).
  unfold grads_clear. simpl. repeat split.
Defined.

Lemma fit_trains_before_validation_raises_witness :
  exists m' : CIFARModel,
    @trained_by demo_lib (1 # 2) (fst (dl_iter demo_loader (st_rng demo_state)))
                (st_model demo_state) m' /\
    fit 1 (1 # 2) demo_loader demo_empty_loader demo_state
    = Raised RuntimeError
        (mkState m'
           (snd (dl_iter demo_empty_loader
                   (snd (dl_iter demo_loader (st_rng demo_state)))))
           (st_trace demo_state
            ++ flat_map (batch_calls (1 # 2))
                 (fst (dl_iter demo_loader (st_rng demo_state))))
           (st_files demo_state)).
Proof.
  apply (fit_trains_before_validation_raises 2 2 0 (1 # 2) demo_loader
           demo_empty_loader demo_state).
  - repeat split.
  - unfold grads_clear. simpl. repeat split.
  - simpl. repeat constructor.
  - reflexivity.
Defined.

(** The parameters have indeed moved when the exception arrives. *)
Example fit_raised_after_update :
  param_values
    (st_model (final_state (fit 1 (1 # 2) demo_loader demo_empty_loader demo_state)))
  <> param_values demo_model.
Proof. vm_compute. discriminate. Qed.

Section FitComposition.

Context {L : TorchLib}.

Lemma for_each_train_stops (pixels classes : nat) (lr : Q)
  (good : list Data) (bad : Data) (rest : list Data) (e : Exn) :
  Forall (fun b => batch_ok pixels classes b = true) good ->
  unpack_batch bad = Err e ->
  forall st, fits pixels classes (st_model st) ->
  for_each (train_on_batch (SGD lr)) (good ++ bad :: rest) st
  = Raised e (mkState (fold_left (trained_on lr) good (st_model st)) (st_rng st)
                      (st_trace st ++ flat_map (batch_calls lr) good)
                      (st_files st)).
Proof.
  intros Hgood Hbad. induction Hgood as [|b t Hb _ IH]; intros st Hfit.
  - simpl. unfold bind, train_on_batch, training_step, bind, lift.
    rewrite Hbad. destruct st. simpl. now rewrite app_nil_r.
  - destruct (training_value_ok _ _ _ b Hfit Hb) as [x [y [out [_ Hv]]]].
    simpl. unfold bind at 1. rewrite (train_on_batch_returns lr b st _ Hv).
    rewrite IH; [|now apply fits_trained_on].
    simpl. now rewrite <- app_assoc.
Qed.

(** X15.  A training batch that does not unpack into two items stops [fit]
    with the exception of the unpacking: the model has taken one descent
    step for each batch before it and none after, the batches after it
    are not looked at, and no validation runs. *)
Theorem fit_stops_at_malformed_batch (pixels classes n : nat) (lr : Q)
  (train_loader val_loader : Loader) (st : State)
  (good : list Data) (bad : Data) (rest : list Data) (e : Exn) :
  fits pixels classes (st_model st) ->
  grads_clear (st_model st) ->
  fst (dl_iter train_loader (st_rng st)) = good ++ bad :: rest ->
  Forall (fun b => batch_ok pixels classes b = true) good ->
  unpack_batch bad = Err e ->
  exists m' : CIFARModel,
    trained_by lr good (st_model st) m' /\
    fit (S n) lr train_loader val_loader st
    = Raised e
        (mkState m'
                 (snd (dl_iter train_loader (st_rng st)))
                 (st_trace st ++ flat_map (batch_calls lr) good)
                 (st_files st)).
Proof.
  intros Hfit Hclear Hbs Hgood Hbad.
  exists (fold_left (trained_on lr) good (st_model st)).
  split; [now apply (trained_by_epoch pixels classes)|].
  unfold fit. simpl fit_loop.
  unfold bind at 1, batches_of at 1.
  destruct (dl_iter train_loader (st_rng st)) as [tb r1]. simpl in *. subst tb.
  unfold bind at 1.
  rewrite (for_each_train_stops pixels classes lr good bad rest e Hgood Hbad
             (mkState (st_model st) r1 (st_trace st) (st_files st)) Hfit).
  reflexivity.
Qed.

Lemma epoch_batches_add (train val : Loader) (n1 n2 : nat) :
  forall rng,
  epoch_batches (n1 + n2) train val rng
  = (fst (epoch_batches n1 train val rng)
     ++ fst (epoch_batches n2 train val (snd (epoch_batches n1 train val rng))),
     snd (epoch_batches n2 train val (snd (epoch_batches n1 train val rng)))).
Proof.
  induction n1 as [|n1 IH]; intros rng; simpl.
  - now destruct (epoch_batches n2 train val rng).
  - destruct (dl_iter train rng) as [tb r1].
    destruct (dl_iter val r1) as [vb r2].
    rewrite IH. destruct (epoch_batches n1 train val r2) as [b1 r3]. reflexivity.
Qed.

Lemma trained_app (lr : Q) (b1 b2 : list (list Data * list Data))
  (m : CIFARModel) :
  trained lr (b1 ++ b2) m = trained lr b2 (trained lr b1 m).
Proof. unfold trained. apply fold_left_app. Qed.

Lemma expected_history_app (lr : Q) (b1 b2 : list (list Data * list Data))
  (h2 : list Metrics) :
  forall (m : CIFARModel) (h1 : list Metrics),
  expected_history lr b1 m = Ok h1 ->
  expected_history lr b2 (trained lr b1 m) = Ok h2 ->
  expected_history lr (b1 ++ b2) m = Ok (h1 ++ h2).
Proof.
  induction b1 as [|[tb vb] b1 IH]; intros m h1 H1 H2; simpl in *.
  - inversion H1. exact H2.
  - destruct (res_bind (res_map (validation_value (fold_left (trained_on lr) tb m)) vb)
                validation_epoch_end) as [r|]; simpl in *; [|discriminate].
    destruct (expected_history lr b1 (fold_left (trained_on lr) tb m))
      as [h|] eqn:Hh; simpl in H1; [|discriminate].
    inversion H1; subst h1.
    rewrite (IH _ h Hh H2). reflexivity.
Qed.

(** X16.  Training [n1] epochs and then [n2] more with the same learning rate
    does what one call with [n1 + n2] epochs does: the history of the
    long call is the two histories one after the other, and the model,
    the generator and the files end up the same. *)
Theorem fit_composes (pixels classes n1 n2 : nat) (lr : Q)
  (train_loader val_loader : Loader) (st : State) :
  fits pixels classes (st_model st) ->
  grads_clear (st_model st) ->
  yields_batches pixels classes train_loader ->
  yields_batches pixels classes val_loader ->
  never_empty val_loader ->
  exists (h1 h2 : list Metrics) (st1 st2 st12 : State),
    fit n1 lr train_loader val_loader st = Returned h1 st1 /\
    fit n2 lr train_loader val_loader st1 = Returned h2 st2 /\
    fit (n1 + n2) lr train_loader val_loader st = Returned (h1 ++ h2) st12 /\
    st_model st12 = st_model st2 /\
    st_rng st12 = st_rng st2 /\
    st_files st12 = st_files st2.
Proof.
  intros Hfit Hclear Htrain Hval Hne.
  destruct (fit_loop_returns pixels classes lr train_loader val_loader n1
              Htrain Hval Hne 0%nat [] st Hfit Hclear)
    as [h1 [_ [_ [He1 Hf1]]]].
  match type of Hf1 with _ = Returned _ ?s => set (st1 := s) in * end.
  assert (Hfit1 : fits pixels classes (st_model st1))
    by (apply fits_trained; exact Hfit).
  assert (Hclear1 : grads_clear (st_model st1))
    by (apply grads_clear_trained; exact Hclear).
  destruct (fit_loop_returns pixels classes lr train_loader val_loader n2
              Htrain Hval Hne 0%nat [] st1 Hfit1 Hclear1)
    as [h2 [_ [_ [He2 Hf2]]]].
  destruct (fit_loop_returns pixels classes lr train_loader val_loader (n1 + n2)
              Htrain Hval Hne 0%nat [] st Hfit Hclear)
    as [h [_ [_ [He Hf]]]].
  rewrite epoch_batches_add in He, Hf. simpl fst in He, Hf. simpl snd in Hf.
  simpl in He2.
  rewrite (expected_history_app lr _ _ h2 _ h1 He1 He2) in He.
  inversion He; subst h.
  eexists h1, h2, st1, _, _. unfold fit.
  split; [exact Hf1|]. split; [exact Hf2|]. split; [exact Hf|].
  simpl. rewrite trained_app. repeat split.
Qed.

End FitComposition.

Lemma fit_stops_at_malformed_batch_witness :
  exists m' : CIFARModel,
    @trained_by demo_lib (1 # 2) [demo_batch] (st_model demo_state) m' /\
    fit 1 (1 # 2) demo_bad_loader demo_loader demo_state
    = Raised ValueError
        (mkState m'
                 (snd (dl_iter demo_bad_loader (st_rng demo_state)))
                 (st_trace demo_state ++ flat_map (batch_calls (1 # 2)) [demo_batch])
                 (st_files demo_state)).
Proof.
  apply (fit_stops_at_malformed_batch 2 2 0 (1 # 2) demo_bad_loader demo_loader
           demo_state [demo_batch] (PyList [FloatTensor cpu demo_images])
           [demo_batch] ValueError).
  - repeat split.
  - unfold grads_clear. simpl. repeat split.
  - reflexivity.
  - repeat constructor.
  - reflexivity.
Defined.

Lemma fit_composes_witness :
  exists (h1 h2 : list Metrics) (st1 st2 st12 : @State demo_lib),
    fit 1 (1 # 2) demo_loader demo_loader demo_state = Returned h1 st1 /\
    fit 2 (1 # 2) demo_loader demo_loader st1 = Returned h2 st2 /\
    fit (1 + 2) (1 # 2) demo_loader demo_loader demo_state
    = Returned (h1 ++ h2) st12 /\
    st_model st12 = st_model st2 /\
    st_rng st12 = st_rng st2 /\
    st_files st12 = st_files st2.
Proof.
  apply (fit_composes 2 2 1 2 (1 # 2) demo_loader demo_loader demo_state).
  - repeat split.
  - unfold grads_clear. simpl. repeat split.
  - intros rng. simpl. repeat constructor.
  - intros rng. simpl. repeat constructor.
  - intros rng. simpl. discriminate.
Defined.


Section FitRaises.

Context {L : TorchLib}.

(** Whatever the batch, a training step touches nothing but the trace,
    to which it adds at most its one cross-entropy call. *)
Lemma training_step_cases (b : Data) (st : State) :
  (exists l, training_step b st = Returned l (logged [Ev_cross_entropy b] st))
  \/ (exists e, training_step b st = Raised e st)
  \/ (exists e, training_step b st = Raised e (logged [Ev_cross_entropy b] st)).
Proof.
  unfold training_step, bind, lift, get_model, emit, ret.
  destruct (unpack_batch b) as [[images labels]|e]; simpl;
    [|right; left; eexists; reflexivity].
  destruct (call_model (st_model st) images) as [out|e]; simpl;
    [|right; left; eexists; reflexivity].
  destruct (F_cross_entropy out labels) as [loss|e]; simpl;
    [|right; right; eexists; reflexivity].
  destruct (loss_tensor loss images labels) as [l|e].
  - left. eexists. reflexivity.
  - right. right. eexists. reflexivity.
Qed.

Lemma training_step_value (b : Data) (st : State) :
  value_of (training_step b st) = training_value (st_model st) b.
Proof.
  unfold training_step, training_value, bind, lift, get_model, emit, ret.
  destruct (unpack_batch b) as [[images labels]|e]; simpl; [|reflexivity].
  destruct (call_model (st_model st) images) as [out|e]; simpl; [|reflexivity].
  destruct (F_cross_entropy out labels) as [loss|e]; simpl; [|reflexivity].
  destruct (loss_tensor loss images labels); reflexivity.
Qed.

(** X24.  When the training step of the first batch raises, [fit] with at
    least one epoch raises the same exception: no parameter and no file
    has changed, no backward pass, optimizer step or validation has run,
    and the only call made is at most the cross-entropy of that batch. *)
Theorem fit_raises_in_first_training_step (n : nat) (lr : Q)
  (train_loader val_loader : Loader) (st : State)
  (bad : Data) (rest : list Data) (e : Exn) :
  fst (dl_iter train_loader (st_rng st)) = bad :: rest ->
  value_of (training_step bad st) = Err e ->
  value_of (fit (S n) lr train_loader val_loader st) = Err e /\
  st_model (final_state (fit (S n) lr train_loader val_loader st)) = st_model st /\
  st_files (final_state (fit (S n) lr train_loader val_loader st)) = st_files st /\
  exists k,
    st_trace (final_state (fit (S n) lr train_loader val_loader st))
    = st_trace st ++ firstn k [Ev_cross_entropy bad].
Proof.
  intros Hbs Hraise. rewrite training_step_value in Hraise.
  assert (H : exists k,
             fit (S n) lr train_loader val_loader st
             = Raised e (mkState (st_model st)
                                 (snd (dl_iter train_loader (st_rng st)))
                                 (st_trace st ++ firstn k [Ev_cross_entropy bad])
                                 (st_files st))).
  { unfold fit. simpl fit_loop. unfold bind at 1, batches_of at 1.
    destruct (dl_iter train_loader (st_rng st)) as [tb r1].
    simpl in Hbs. subst tb. simpl snd.
    set (st0 := mkState (st_model st) r1 (st_trace st) (st_files st)).
    pose proof (training_step_value bad st0) as Hv. simpl in Hv.
    rewrite Hraise in Hv.
    unfold bind at 1. simpl for_each. unfold bind at 1.
    unfold train_on_batch. unfold bind at 1.
    destruct (training_step_cases bad st0) as [[l H]|[[e' H]|[e' H]]];
      rewrite H in *; simpl in Hv; try discriminate;
      inversion Hv; subst e'.
    - exists 0%nat. unfold st0. simpl. now rewrite app_nil_r.
    - exists 1%nat. reflexivity. }
  destruct H as [k H]. rewrite H. simpl.
  split; [reflexivity|]. split; [reflexivity|]. split; [reflexivity|].
  exists k. reflexivity.
Qed.

End FitRaises.

Lemma fit_raises_in_first_training_step_witness :
  value_of (fit 1 (1 # 2) demo_mislabelled_loader demo_loader demo_state)
  = Err IndexError /\
  st_model (final_state (fit 1 (1 # 2) demo_mislabelled_loader demo_loader demo_state))
  = st_model demo_state /\
  st_files (final_state (fit 1 (1 # 2) demo_mislabelled_loader demo_loader demo_state))
  = st_files demo_state /\
  exists k,
    st_trace (final_state (fit 1 (1 # 2) demo_mislabelled_loader demo_loader demo_state))
    = st_trace demo_state
      ++ firstn k [Ev_cross_entropy
                     (PyTuple [FloatTensor cpu demo_images; LongTensor cpu [0; 5]%Z])].
Proof.
  apply (fit_raises_in_first_training_step 0 (1 # 2) demo_mislabelled_loader
           demo_loader demo_state
           (PyTuple [FloatTensor cpu demo_images; LongTensor cpu [0; 5]%Z])
           [demo_batch] IndexError).
  - reflexivity.
  - reflexivity.
Defined.

(* ------------------------------------------------------------------ *)
(** ** state_dict, load_state_dict and the checkpoint file *)

(** [load_state_dict] entry by entry. *)
Lemma load_state_dict_parts (sd : StateDict) (m : CIFARModel) :
  load_state_dict sd m
  = (mkModel
       (mkLinear (fst (load_weight "linear1.weight" sd (weight (linear1 m))))
                 (fst (load_bias "linear1.bias" sd (bias (linear1 m)))))
       (mkLinear (fst (load_weight "linear2.weight" sd (weight (linear2 m))))
                 (fst (load_bias "linear2.bias" sd (bias (linear2 m)))))
       (mkLinear (fst (load_weight "linear3.weight" sd (weight (linear3 m))))
                 (fst (load_bias "linear3.bias" sd (bias (linear3 m))))),
     snd (load_weight "linear1.weight" sd (weight (linear1 m)))
     && snd (load_bias "linear1.bias" sd (bias (linear1 m)))
     && snd (load_weight "linear2.weight" sd (weight (linear2 m)))
     && snd (load_bias "linear2.bias" sd (bias (linear2 m)))
     && snd (load_weight "linear3.weight" sd (weight (linear3 m)))
     && snd (load_bias "linear3.bias" sd (bias (linear3 m)))
     && forallb (fun kv => existsb (String.eqb (fst kv)) param_names) sd).
Proof.
  unfold load_state_dict.
  destruct (load_weight "linear1.weight" sd (weight (linear1 m))).
  destruct (load_bias "linear1.bias" sd (bias (linear1 m))).
  destruct (load_weight "linear2.weight" sd (weight (linear2 m))).
  destruct (load_bias "linear2.bias" sd (bias (linear2 m))).
  destruct (load_weight "linear3.weight" sd (weight (linear3 m))).
  destruct (load_bias "linear3.bias" sd (bias (linear3 m))).
  reflexivity.
Qed.

Section CheckpointFurther.

Context {L : TorchLib}.

(** X22.  The sanity check never touches the script's model, and it leaves the
    model's dictionary in the checkpoint file, whether the reload is
    accepted or not and whether the evaluation returns or raises. *)
Theorem sanity_check_keeps_model (model2 : CIFARModel) (test_loader : Loader)
  (st : State) :
  st_model (final_state (sanity_check model2 test_loader st)) = st_model st /\
  dict_get checkpoint_path (st_files (final_state (sanity_check model2 test_loader st)))
  = Some (torch_pickle (state_dict (st_model st))).
Proof.
  assert (H : exists rng' tr,
             final_state (sanity_check model2 test_loader st)
             = mkState (st_model st) rng' tr
                 ((checkpoint_path, torch_pickle (state_dict (st_model st)))
                  :: st_files st)).
  { unfold sanity_check, bind at 1, get_model.
    unfold bind at 1, torch_save. unfold bind at 1, torch_load. simpl.
    rewrite unpickle_pickle. unfold lift.
    destruct (load_state_dict (state_dict (st_model st)) model2) as [m2' ok].
    destruct ok; [|eexists _, _; reflexivity].
    unfold bind at 1, on_model.
    set (st2 := set_model m2' _).
    unfold bind at 1.
    destruct (evaluate_frame test_loader st2) as [n Hn].
    destruct (evaluate test_loader st2) as [r s|e s]; simpl in Hn; subst s;
      eexists _, _; reflexivity. }
  destruct H as [rng' [tr H]]. rewrite H. split; reflexivity.
Qed.

(** X23.  Reloading into a model of another architecture raises
    [RuntimeError]: nothing is evaluated, and the state is the one after
    the save. *)
Theorem sanity_check_refuses_other_architecture (model2 : CIFARModel)
  (test_loader : Loader) (st : State) :
  same_architecture model2 (st_model st) = false ->
  sanity_check model2 test_loader st
  = Raised RuntimeError (final_state (torch_save (state_dict (st_model st))
                                        checkpoint_path st)).
Proof.
  intros Harch.
  pose proof (load_state_dict_parts (state_dict (st_model st)) model2) as Hparts.
  assert (Hok : snd (load_state_dict (state_dict (st_model st)) model2) = false).
  { rewrite Hparts. cbn [snd].
    unfold same_architecture in Harch.
    unfold load_weight, load_bias, state_dict. cbn.
    revert Harch.
    destruct (shape_eqb (row_lengths (data (weight (linear1 model2)))) _);
    destruct (Nat.eqb (length (data (bias (linear1 model2)))) _);
    destruct (shape_eqb (row_lengths (data (weight (linear2 model2)))) _);
    destruct (Nat.eqb (length (data (bias (linear2 model2)))) _);
    destruct (shape_eqb (row_lengths (data (weight (linear3 model2)))) _);
    destruct (Nat.eqb (length (data (bias (linear3 model2)))) _);
    simpl; intros; congruence. }
  unfold sanity_check, bind at 1, get_model.
  unfold bind at 1, torch_save. unfold bind at 1, torch_load. simpl.
  rewrite unpickle_pickle. unfold lift.
  destruct (load_state_dict (state_dict (st_model st)) model2) as [m2' ok].
  simpl in Hok. subst ok. reflexivity.
Qed.

End CheckpointFurther.

Lemma sanity_check_refuses_other_architecture_witness :
  sanity_check demo_wide_model demo_loader demo_state
  = Raised RuntimeError
      (final_state (torch_save (state_dict (st_model demo_state))
                      checkpoint_path demo_state)).
Proof.
  apply (sanity_check_refuses_other_architecture demo_wide_model demo_loader
           demo_state).
  reflexivity.
Defined.

(* ------------------------------------------------------------------ *)
(** ** forward *)

Lemma linear_apply_inv (l : Linear) (x out : Vector) :
  linear_apply l x = Ok out ->
  length out = out_features l /\
  Forall (fun row => length row = length x) (data (weight l)).
Proof.
  unfold linear_apply, out_features.
  destruct (forallb _ (data (weight l))) eqn:Hrows; simpl; [|discriminate].
  destruct (Nat.eqb _ _); [|discriminate].
  intros H. inversion H. split; [apply length_map|].
  apply Forall_forall. intros row Hin. rewrite forallb_forall in Hrows.
  apply Nat.eqb_eq. now apply Hrows.
Qed.

Lemma forward_one_inv (m : CIFARModel) (img : Image) (row : Vector) :
  forward_one m img = Ok row ->
  length row = out_features (linear3 m) /\
  flatten img <> [] /\
  Forall (fun w => length w = length (flatten img)) (data (weight (linear1 m))).
Proof.
  unfold forward_one.
  destruct (Nat.eqb_spec (length (flatten img)) 0) as [|Hne]; [discriminate|].
  destruct (linear_apply (linear1 m) (flatten img)) as [o1|] eqn:E1; simpl;
    [|discriminate].
  destruct (linear_apply (linear2 m) (relu o1)) as [o2|] eqn:E2; simpl;
    [|discriminate].
  intros E3. apply linear_apply_inv in E1, E3.
  split; [apply E3|]. split; [|apply E1].
  intros Hnil. apply Hne. now rewrite Hnil.
Qed.

(** X10.  The forward pass raises [RuntimeError] on a batch without images.
    When it returns, the batch had at least one image, every image was
    non-empty and had one entry per column of the first layer's weight,
    and the result has one row of scores per image, each with as many
    scores as the output layer has features; accumulating or clearing
    gradients does not change the result. *)
Theorem forward_output_shape (m : CIFARModel) (xb : list Image) (out : Matrix)
  (g : Grads) :
  forward m [] = Err RuntimeError /\
  (forward m xb = Ok out ->
   xb <> [] /\
   length out = length xb /\
   Forall (fun row => length row = out_features (linear3 m)) out /\
   Forall (fun img =>
             flatten img <> [] /\
             Forall (fun w => length w = length (flatten img))
                    (data (weight (linear1 m)))) xb /\
   forward (accumulate_grads g m) xb = Ok out /\
   forward (zero_grad m) xb = Ok out).
Proof.
  split; [reflexivity|]. intros H.
  assert (Hne : xb <> []) by (intros ->; discriminate).
  split; [exact Hne|].
  assert (Hmap : res_map (forward_one m) xb = Ok out)
    by (destruct xb; [congruence | exact H]).
  split; [exact (res_map_length _ _ _ Hmap)|].
  apply res_map_Forall2 in Hmap.
  split; [|split].
  - clear H Hne. induction Hmap as [|img row t rows Himg _ IH]; [constructor|].
    constructor; [|exact IH]. now apply forward_one_inv in Himg.
  - clear H Hne. induction Hmap as [|img row t rows Himg _ IH]; [constructor|].
    constructor; [|exact IH]. apply forward_one_inv in Himg. split; apply Himg.
  - rewrite <- H. split; apply forward_ext; reflexivity.
Qed.

Lemma forward_output_shape_witness :
  demo_images <> [] /\
  length [[3; 0]; [4; 3]] = length demo_images /\
  Forall (fun row : Vector => length row = out_features (linear3 demo_model))
         [[3; 0]; [4; 3]] /\
  Forall (fun img =>
            flatten img <> [] /\
            Forall (fun w : Vector => length w = length (flatten img))
                   (data (weight (linear1 demo_model)))) demo_images /\
  forward (accumulate_grads
             (@cross_entropy_grad demo_lib demo_model demo_images [0; 1]%Z)
             demo_model) demo_images
  = Ok [[3; 0]; [4; 3]] /\
  forward (zero_grad demo_model) demo_images = Ok [[3; 0]; [4; 3]].
Proof.
  apply (proj2 (forward_output_shape demo_model demo_images [[3; 0]; [4; 3]]
                  (@cross_entropy_grad demo_lib demo_model demo_images [0; 1]%Z))).
  reflexivity.
Defined.

(** Images of two entries do not fit a first layer of three inputs. *)
Example forward_wrong_size :
  forward demo_wide_model demo_images = Err RuntimeError.
Proof. reflexivity. Qed.
